(** * ProfileScope: a shallow embedding of [profilescope.py]

    The development follows the pipeline of the program:
    the text table printed by [pstats] is parsed into [FunctionStats]
    records ([_extract_hot_functions]), the analyzer derives bottlenecks and
    recommendations ([_identify_bottlenecks], [_generate_recommendations]),
    [save_report] persists a report as JSON and [compare_reports] compares two
    persisted reports; [profile] runs the subject script.  The renderers
    ([format_terminal_report] and the Markdown and HTML branches of
    [save_report]) and the commands [run] and [compare] of [main] follow.

    Python values are modelled as follows.
    - [str] is [string]; a character is a code point below 256.
    - [int] is [Z] (unbounded, as in Python).
    - [float] is the kernel's binary64 [float], so that comparisons with
      [10.0], divisions and infinities behave as in the interpreter.
    - a [dict] with string keys is a [gmap string _]; a [set] is a [gset].
    - an exception is a value of [pyerr], threaded by the [exc] monad. *)

From Stdlib Require Import ZArith String Ascii List Bool Floats Lia.
From Stdlib Require Import Sorting.Sorted Numbers.DecimalString.
From stdpp Require Import base option list gmap strings.

Set Warnings "-register-all".
#[local] Open Scope string_scope.
#[local] Open Scope Z_scope.

(** ** Python strings *)

Module PyStr.

(** [str.isspace] on the code points below 256. *)
Definition is_space (c : ascii) : bool :=
  let n := nat_of_ascii c in
  ((9 <=? n)%nat && (n <=? 13)%nat) || ((28 <=? n)%nat && (n <=? 32)%nat)
  || (n =? 133)%nat || (n =? 160)%nat.

(** The ASCII decimal digits, the only code points below 256 that [int] and
    [float] read as digits. *)
Definition is_dec (c : ascii) : bool :=
  let n := nat_of_ascii c in (48 <=? n)%nat && (n <=? 57)%nat.

Definition dec_val (c : ascii) : Z := Z.of_nat (nat_of_ascii c) - 48.

(** [str.isdigit] also accepts the superscript digits (code points 178, 179
    and 185), which [int] then rejects. *)
Definition is_digit_char (c : ascii) : bool :=
  let n := nat_of_ascii c in
  is_dec c || (n =? 178)%nat || (n =? 179)%nat || (n =? 185)%nat.

Fixpoint all_chars (p : ascii -> bool) (s : string) : bool :=
  match s with
  | EmptyString => true
  | String c s' => p c && all_chars p s'
  end.

(** [s.isdigit()] *)
Definition isdigit (s : string) : bool :=
  match s with
  | EmptyString => false
  | _ => all_chars is_digit_char s
  end.

(** [c in s] for a one-character string [c]. *)
Fixpoint contains_char (c : ascii) (s : string) : bool :=
  match s with
  | EmptyString => false
  | String d s' => Ascii.eqb c d || contains_char c s'
  end.

(** [sub in s] *)
Fixpoint contains (sub s : string) : bool :=
  String.prefix sub s ||
  match s with
  | EmptyString => false
  | String _ s' => contains sub s'
  end.

(** [s.split(sep)] for a one-character separator: never empty. *)
Fixpoint split_char (sep : ascii) (s : string) : list string :=
  match s with
  | EmptyString => [EmptyString]
  | String c s' =>
      if Ascii.eqb c sep then EmptyString :: split_char sep s'
      else match split_char sep s' with
           | [] => [String c EmptyString]
           | w :: ws => String c w :: ws
           end
  end.

(** [s.split(None, maxsplit)]: fields separated by runs of whitespace; once
    [maxsplit] fields have been cut, what remains (its leading whitespace
    dropped, its trailing whitespace kept) is the last field.  [cur] is the
    field being read, [n] the number of cuts still allowed. *)
Fixpoint split_ws_from (n : nat) (cur : option string) (s : string) : list string :=
  match s with
  | EmptyString => match cur with Some w => [w] | None => [] end
  | String c s' =>
      match cur with
      | Some w =>
          if is_space c then w :: split_ws_from n None s'
          else split_ws_from n (Some (w ++ String c EmptyString)) s'
      | None =>
          if is_space c then split_ws_from n None s'
          else match n with
               | O => [s]
               | S n' => split_ws_from n' (Some (String c EmptyString)) s'
               end
      end
  end.

Definition split_ws (maxsplit : nat) (s : string) : list string :=
  split_ws_from maxsplit None s.

(** [s.rstrip(c)] for a one-character [c]. *)
Fixpoint rstrip_char (c : ascii) (s : string) : string :=
  match s with
  | EmptyString => EmptyString
  | String d s' =>
      match rstrip_char c s' with
      | EmptyString => if Ascii.eqb d c then EmptyString else String d EmptyString
      | r => String d r
      end
  end.

(** [s.rsplit(c, 1)] when [c] occurs in [s]: the text before the last [c]
    and the text after it; [None] when [c] does not occur. *)
Fixpoint rsplit1 (c : ascii) (s : string) : option (string * string) :=
  match s with
  | EmptyString => None
  | String d s' =>
      match rsplit1 c s' with
      | Some (a, b) => Some (String d a, b)
      | None => if Ascii.eqb d c then Some (EmptyString, s') else None
      end
  end.

Definition lower (c : ascii) : ascii :=
  let n := nat_of_ascii c in
  if (65 <=? n)%nat && (n <=? 90)%nat then ascii_of_nat (n + 32) else c.

Fixpoint lower_str (s : string) : string :=
  match s with
  | EmptyString => EmptyString
  | String c s' => String (lower c) (lower_str s')
  end.

(** [ch * n] *)
Definition repeat_char (c : ascii) (n : nat) : string :=
  string_of_list_ascii (List.repeat c n).

End PyStr.

(** ** Python numbers *)

Module PyNum.
Import PyStr.

(** *** Correct rounding of a quotient of integers *)

(** The binary64 value nearest to [n / d] (ties to even) for [0 < n] and
    [0 < d]; [infinity] when the rounded value exceeds the largest finite
    float.  [k'] is the exponent of the leading bit of the quotient and [e]
    the exponent of the last bit kept (at least [-1074], the subnormal
    grid). *)
Definition round_ratio (n d : Z) : float :=
  let k := Z.log2 n - Z.log2 d in
  let ge := if 0 <=? k then d * 2 ^ k <=? n else d <=? n * 2 ^ (- k) in
  let k' := if ge then k else k - 1 in
  let e := Z.max (k' - 52) (-1074) in
  let num := if 0 <=? e then n else n * 2 ^ (- e) in
  let den := if 0 <=? e then d * 2 ^ e else d in
  let q := num / den in
  let r := num mod den in
  let q' := if (den <? 2 * r) || ((den =? 2 * r) && Z.odd q) then q + 1 else q in
  if (971 <? e) || ((e =? 971) && (q' =? 2 ^ 53)) then infinity
  else Z.ldexp (of_uint63 (Uint63.of_Z q')) e.

Definition with_sign (neg : bool) (f : float) : float :=
  if neg then (- f)%float else f.

(** [a / b] on two [int]s ([long_true_divide]): the correctly rounded
    quotient; [None] stands for [OverflowError].  The caller guarantees
    [b <> 0]. *)
Definition int_truediv (a b : Z) : option float :=
  let neg := xorb (a <? 0) (b <? 0) in
  if a =? 0 then Some (with_sign neg zero)
  else
    let f := round_ratio (Z.abs a) (Z.abs b) in
    if is_infinity f then None else Some (with_sign neg f).

(** The conversion of an [int] operand to [float] in mixed arithmetic;
    [None] stands for [OverflowError]. *)
Definition int_to_float (a : Z) : option float :=
  if a =? 0 then Some zero
  else
    let f := round_ratio (Z.abs a) 1 in
    if is_infinity f then None else Some (with_sign (a <? 0) f).

(** *** Reading numbers from text *)

(** A digit part: a digit followed by digits, each optionally preceded by
    one underscore.  Returns the digit values and the unread text. *)
Fixpoint digits_tail (l : list ascii) : list Z * list ascii :=
  match l with
  | c :: l' =>
      if is_dec c then
        let (ds, r) := digits_tail l' in (dec_val c :: ds, r)
      else if Ascii.eqb c "_" then
        match l' with
        | d :: l'' =>
            if is_dec d then
              let (ds, r) := digits_tail l'' in (dec_val d :: ds, r)
            else (nil, l)
        | nil => (nil, l)
        end
      else (nil, l)
  | nil => (nil, nil)
  end.

Definition digitpart (l : list ascii) : option (list Z * list ascii) :=
  match l with
  | c :: l' =>
      if is_dec c then
        let (ds, r) := digits_tail l' in Some (dec_val c :: ds, r)
      else None
  | nil => None
  end.

Definition digits_value (ds : list Z) : Z :=
  fold_left (fun acc d => 10 * acc + d) ds 0.

(** An optional sign: [true] for a minus. *)
Definition read_sign (l : list ascii) : bool * list ascii :=
  match l with
  | c :: l' =>
      if Ascii.eqb c "-" then (true, l')
      else if Ascii.eqb c "+" then (false, l')
      else (false, l)
  | nil => (false, l)
  end.

(** [int(s)] for a string [s] without whitespace (the only strings the
    parser passes: pieces of a field of [split(None, 5)]).  [None] stands
    for [ValueError].  The interpreter's limit on the number of digits
    (4300 by default) is not modelled. *)
Definition int_of_field (s : string) : option Z :=
  let (neg, l) := read_sign (list_ascii_of_string s) in
  match digitpart l with
  | Some (ds, nil) => Some (if neg then - digits_value ds else digits_value ds)
  | _ => None
  end.

(** The float nearest to [n * 10 ^ e] for [0 <= n].  Exponents far outside
    the binary64 range are decided without computing the power:
    [ndigits] bounds the number of digits of [n]. *)
Definition decimal_to_float (n e : Z) (ndigits : Z) : float :=
  if n =? 0 then zero
  else if 310 <? e then infinity
  else if e + ndigits <? -330 then zero
  else if 0 <=? e then round_ratio (n * 10 ^ e) 1
  else round_ratio n (10 ^ (- e)).

(** The exponent part: [e] or [E], an optional sign and a digit part. *)
Definition read_exponent (l : list ascii) : option (Z * list ascii) :=
  match l with
  | c :: l' =>
      if Ascii.eqb (lower c) "e" then
        let (neg, l'') := read_sign l' in
        match digitpart l'' with
        | Some (ds, r) => Some (if neg then - digits_value ds else digits_value ds, r)
        | None => None
        end
      else Some (0, l)
  | nil => Some (0, l)
  end.

(** The mantissa: [digits], [digits.], [digits.digits] or [.digits].
    Returns the digits before and after the point. *)
Definition read_mantissa (l : list ascii) : option (list Z * list Z * list ascii) :=
  match digitpart l with
  | Some (ip, r) =>
      match r with
      | c :: r' =>
          if Ascii.eqb c "." then
            match digitpart r' with
            | Some (fp, r'') => Some (ip, fp, r'')
            | None => Some (ip, nil, r')
            end
          else Some (ip, nil, r)
      | nil => Some (ip, nil, r)
      end
  | None =>
      match l with
      | c :: r' =>
          if Ascii.eqb c "." then
            match digitpart r' with
            | Some (fp, r'') => Some (nil, fp, r'')
            | None => None
            end
          else None
      | nil => None
      end
  end.

(** [float(s)] for a string [s] without whitespace.  [None] stands for
    [ValueError]. *)
Definition float_of_field (s : string) : option float :=
  let (neg, l) := read_sign (list_ascii_of_string s) in
  let word := lower_str (string_of_list_ascii l) in
  if String.eqb word "inf" || String.eqb word "infinity" then
    Some (with_sign neg infinity)
  else if String.eqb word "nan" then Some nan
  else
    match read_mantissa l with
    | Some (ip, fp, r) =>
        match read_exponent r with
        | Some (ex, nil) =>
            let ds := (ip ++ fp)%list in
            Some (with_sign neg
                    (decimal_to_float (digits_value ds)
                       (ex - Z.of_nat (List.length fp))
                       (Z.of_nat (List.length ds))))
        | _ => None
        end
    | None => None
    end.

(** *** Writing numbers as text *)

(** [str] and [format] of an integer are given for the integers that the
    interpreter converts to text.  CPython 3.11 and later refuse, with
    [ValueError], an integer of more than 4300 digits (the default of
    [sys.set_int_max_str_digits]); [int] and [json.load] refuse such a
    numeral in the same way.  That limit is left out here as it is in
    [int_of_field]: the renderers below are those of a report whose integers
    are within it. *)

(** The decimal digits of a non-negative integer. *)
Definition decimal (n : Z) : string :=
  NilZero.string_of_uint (N.to_uint (Z.to_N n)).

(** [str(z)], the [{z}] of an f-string. *)
Definition str_int (z : Z) : string :=
  if z <? 0 then "-" ++ decimal (- z) else decimal z.

(** Digits grouped by three from the right, with commas. *)
Fixpoint group3 (l : list ascii) : list ascii :=
  match l with
  | a :: ((b :: c :: _ :: _) as l') =>
      if (Nat.modulo (List.length l') 3 =? 0)%nat then a :: "," %char :: group3 l'
      else a :: group3 l'
  | a :: l' => a :: group3 l'
  | nil => nil
  end.

(** [f"{z:,}"] *)
Definition format_comma (z : Z) : string :=
  let ds := string_of_list_ascii (group3 (list_ascii_of_string (decimal (Z.abs z)))) in
  if z <? 0 then "-" ++ ds else ds.

(** [n / d] rounded to the nearest integer, ties to even ([0 <= n], [0 < d]). *)
Definition div_half_even (n d : Z) : Z :=
  let q := n / d in
  let r := n mod d in
  if (d <? 2 * r) || ((d =? 2 * r) && Z.odd q) then q + 1 else q.

(** [f"{x:.pf}"] for [0 < p]: the exact value of the float, rounded half to
    even at [p] decimals. *)
Definition format_fixed (p : nat) (x : float) : string :=
  let sign (s : bool) := if s then "-" else "" in
  let body (n : Z) :=
    let ds := decimal n in
    let pad := repeat_char "0" (S p - String.length ds) ++ ds in
    let k := (String.length pad - p)%nat in
    substring 0 k pad ++ "." ++ substring k p pad in
  match Prim2SF x with
  | S754_nan => "nan"
  | S754_infinity s => sign s ++ "inf"
  | S754_zero s => sign s ++ body 0
  | S754_finite s m e =>
      let scale := 10 ^ Z.of_nat p in
      let n := if 0 <=? e then Z.pos m * 2 ^ e * scale
               else div_half_even (Z.pos m * scale) (2 ^ (- e)) in
      sign s ++ body n
  end.

End PyNum.

(** ** The data model *)

(** [class FunctionStats]: the statistics of one function. *)
Module FunctionStats.
Record t : Type := mk {
  name : string;
  filename : string;
  line_number : Z;
  total_calls : Z;
  primitive_calls : Z;
  total_time : float;
  cumulative_time : float;
  time_per_call : float;
  cumulative_per_call : float;
  percentage : float
}.
End FunctionStats.

(** What the program observes of a [pstats.Stats] object: the text that
    [strip_dirs(); sort_stats('cumulative'); print_stats(limit)] writes to
    the stream, and the three counters read by [_extract_call_tree]. *)
Module Stats.
Record t : Type := mk {
  print_stats : nat -> string;
  total_calls : Z;
  prim_calls : Z;
  n_functions : Z
}.
End Stats.

(** ** The stats parser *)

Import PyStr PyNum.

(** The location token [filename:lineno(function)]: the file name, the line
    number and the function name.  [None] stands for the [ValueError] of
    [int] (or the [IndexError] of an index), which skips the row. *)
Definition parse_func_info (func_info : string) : option (string * Z * string) :=
  if contains_char ":" func_info && contains_char "(" func_info then
    file_line ← split_char "(" func_info !! 0%nat;
    func_name ← rstrip_char ")" <$> split_char "(" func_info !! 1%nat;
    if contains_char ":" file_line then
      '(filename, line_no) ← rsplit1 ":" file_line;
      line_number ← (if isdigit line_no then int_of_field line_no else Some 0);
      Some (filename, line_number, func_name)
    else Some (file_line, 0, func_name)
  else Some ("unknown", 0, func_info).

(** The call-count field, [X] or [X/Y]: the pair
    [(primitive_calls, total_calls)]. *)
Definition parse_ncalls (ncalls_str : string) : option (Z * Z) :=
  if contains_char "/" ncalls_str then
    match split_char "/" ncalls_str with
    | [primitive; total] =>
        primitive_calls ← int_of_field primitive;
        total_calls ← int_of_field total;
        Some (primitive_calls, total_calls)
    | _ => None
    end
  else
    primitive_calls ← int_of_field ncalls_str;
    Some (primitive_calls, primitive_calls).

(** The body of the loop of [_extract_hot_functions] on one line of the
    table: [None] when the line is skipped (fewer than six fields, or an
    exception caught by [except (ValueError, IndexError)]). *)
Definition parse_stats_line (total_time : float) (line : string)
  : option FunctionStats.t :=
  match split_ws 5 line with
  | [ncalls_str; p1; p2; p3; p4; func_info] =>
      tottime ← float_of_field p1;
      tottime_percall ← (if negb (String.eqb p2 "0.000") then float_of_field p2 else Some 0%float);
      cumtime ← float_of_field p3;
      cumtime_percall ← (if negb (String.eqb p4 "0.000") then float_of_field p4 else Some 0%float);
      '(filename, line_number, func_name) ← parse_func_info func_info;
      '(primitive_calls, total_calls) ← parse_ncalls ncalls_str;
      let percentage :=
        if (0 <? total_time)%float then (cumtime / total_time * 100)%float else 0%float in
      Some (FunctionStats.mk func_name filename line_number total_calls
              primitive_calls tottime cumtime tottime_percall cumtime_percall
              percentage)
  | _ => None
  end.

Definition is_header (line : string) : bool :=
  contains "ncalls" line && contains "tottime" line.

(** The loop over the lines, with its two variables [parsing_stats] and
    [hot_functions]. *)
Fixpoint scan_lines (total_time : float) (parsing_stats : bool)
  (hot_functions : list FunctionStats.t) (lines : list string)
  : list FunctionStats.t :=
  match lines with
  | [] => hot_functions
  | line :: rest =>
      if is_header line then scan_lines total_time true hot_functions rest
      else if negb parsing_stats then
        scan_lines total_time parsing_stats hot_functions rest
      else
        match parse_stats_line total_time line with
        | Some func_stats =>
            scan_lines total_time parsing_stats (hot_functions ++ [func_stats])%list rest
        | None => scan_lines total_time parsing_stats hot_functions rest
        end
  end.

(** The parse of the captured output. *)
Definition parse_output (output : string) (total_time : float)
  : list FunctionStats.t :=
  scan_lines total_time false [] (split_char "010" output).

Definition _extract_hot_functions (stats : Stats.t) (total_time : float)
  (limit : nat) : list FunctionStats.t :=
  parse_output (Stats.print_stats stats limit) total_time.

(** The default value of [limit]. *)
Definition default_limit : nat := 20.

(** ** The analyzer *)

(** [for x in xs: if cond(x): out.append(msg(x))] *)
Definition append_matching {A : Type} (cond : A -> bool) (msg : A -> string)
  (out : list string) (xs : list A) : list string :=
  fold_left (fun out x => if cond x then (out ++ [msg x])%list else out) xs out.

Definition bottleneck_message (func : FunctionStats.t) : string :=
  FunctionStats.name func ++ " (" ++ format_fixed 1 (FunctionStats.percentage func)
  ++ "% of total time)".

Definition _identify_bottlenecks (hot_functions : list FunctionStats.t)
  : list string :=
  append_matching (fun func => (10 <? FunctionStats.percentage func)%float)
    bottleneck_message [] (take 10 hot_functions).

Definition _extract_call_tree (stats : Stats.t) : gmap string Z :=
  <["total_calls" := Stats.total_calls stats]>
    (<["primitive_calls" := Stats.prim_calls stats]>
       (<["total_functions" := Stats.n_functions stats]> ∅)).

Definition high_calls_message (func : FunctionStats.t) : string :=
  "Consider optimizing " ++ FunctionStats.name func ++ ": called "
  ++ format_comma (FunctionStats.total_calls func) ++ " times".

Definition hot_path_message (func : FunctionStats.t) : string :=
  "Hot path detected in " ++ FunctionStats.name func ++ ": "
  ++ format_fixed 3 (FunctionStats.cumulative_time func) ++ "s ("
  ++ format_fixed 1 (FunctionStats.percentage func) ++ "%)".

Definition recursive_message (func : FunctionStats.t) : string :=
  "Recursive function " ++ FunctionStats.name func ++ ": "
  ++ str_int (FunctionStats.total_calls func) ++ " calls ("
  ++ str_int (FunctionStats.primitive_calls func) ++ " primitive)".

(** The literal [0.2]. *)
Definition point_two : float := 0x1.999999999999ap-3%float.

Definition _generate_recommendations (hot_functions : list FunctionStats.t)
  (total_time : float) : list string :=
  match hot_functions with
  | [] => ["No significant performance issues detected."]
  | _ =>
      let recommendations :=
        append_matching (fun func => 10000 <? FunctionStats.total_calls func)
          high_calls_message [] (take 5 hot_functions) in
      let recommendations :=
        append_matching
          (fun func => (total_time * point_two <? FunctionStats.cumulative_time func)%float)
          hot_path_message recommendations (take 5 hot_functions) in
      let recommendations :=
        append_matching
          (fun func => FunctionStats.primitive_calls func <? FunctionStats.total_calls func)
          recursive_message recommendations (take 10 hot_functions) in
      match recommendations with
      | [] => ["Performance looks good! No major bottlenecks detected."]
      | _ => recommendations
      end
  end.

(** ** Exceptions *)

Inductive pyerr : Type :=
| FileNotFoundError (msg : string)
| RuntimeError (msg : string)
| ValueError (msg : string)
| JSONDecodeError
| UnicodeDecodeError
| RecursionError
| KeyError (key : string)
| TypeError
| AttributeError
| OverflowError
| ZeroDivisionError
| OSError (msg : string)
| BaseException (msg : string).

(** A computation that returns a value or raises. *)
Inductive exc (A : Type) : Type :=
| Ok (a : A)
| Raise (e : pyerr).
Arguments Ok {A} a.
Arguments Raise {A} e.

#[export] Instance exc_ret : MRet exc := fun A a => Ok a.
#[export] Instance exc_bind : MBind exc := fun A B f m =>
  match m with
  | Ok a => f a
  | Raise e => Raise e
  end.
#[export] Instance exc_fmap : FMap exc := fun A B f m =>
  match m with
  | Ok a => Ok (f a)
  | Raise e => Raise e
  end.

(** An [option] whose [None] raises [e]. *)
Definition or_raise {A : Type} (e : pyerr) (o : option A) : exc A :=
  match o with
  | Some a => Ok a
  | None => Raise e
  end.

(** How [open(path)] followed by [json.load(f)] fails on a path that exists:
    the bytes are no text in the encoding of the locale
    ([UnicodeDecodeError]); the text is no JSON ([json.JSONDecodeError]); an
    integer literal has more digits than the interpreter converts
    ([ValueError], 4300 digits by default); arrays or objects are nested too
    deep ([RecursionError]); the path cannot be opened for reading, being a
    directory or lacking a permission ([OSError]). *)
Inductive load_error : Type :=
| NotText
| NotJson
| IntegerTooLong (msg : string)
| NestedTooDeep
| NotReadable (msg : string).

Definition load_exception (e : load_error) : pyerr :=
  match e with
  | NotText => UnicodeDecodeError
  | NotJson => JSONDecodeError
  | IntegerTooLong msg => ValueError msg
  | NestedTooDeep => RecursionError
  | NotReadable msg => OSError msg
  end.

(** ** Reports and their JSON form *)

(** [class ProfileReport].  The call tree is the dictionary of three
    counters built by [_extract_call_tree]. *)
Module ProfileReport.
Record t : Type := mk {
  script_path : string;
  total_time : float;
  total_calls : Z;
  hot_functions : list FunctionStats.t;
  bottlenecks : list string;
  call_tree : gmap string Z;
  recommendations : list string;
  timestamp : string
}.
End ProfileReport.

(** The values that [json.load] returns and [json.dump] accepts. *)
Inductive json : Type :=
| JNull
| JBool (b : bool)
| JInt (z : Z)
| JFloat (f : float)
| JStr (s : string)
| JArr (l : list json)
| JObj (m : gmap string json).

(** [dataclasses.asdict] on a [FunctionStats]. *)
Definition asdict (f : FunctionStats.t) : json :=
  JObj (<["name" := JStr (FunctionStats.name f)]>
       (<["filename" := JStr (FunctionStats.filename f)]>
       (<["line_number" := JInt (FunctionStats.line_number f)]>
       (<["total_calls" := JInt (FunctionStats.total_calls f)]>
       (<["primitive_calls" := JInt (FunctionStats.primitive_calls f)]>
       (<["total_time" := JFloat (FunctionStats.total_time f)]>
       (<["cumulative_time" := JFloat (FunctionStats.cumulative_time f)]>
       (<["time_per_call" := JFloat (FunctionStats.time_per_call f)]>
       (<["cumulative_per_call" := JFloat (FunctionStats.cumulative_per_call f)]>
       (<["percentage" := JFloat (FunctionStats.percentage f)]> ∅)))))))))).

(** The entries of the dictionary [report_dict] built by [save_report]. *)
Definition report_fields (report : ProfileReport.t) : gmap string json :=
  <["script_path" := JStr (ProfileReport.script_path report)]>
  (<["total_time" := JFloat (ProfileReport.total_time report)]>
  (<["total_calls" := JInt (ProfileReport.total_calls report)]>
  (<["hot_functions" := JArr (asdict <$> ProfileReport.hot_functions report)]>
  (<["bottlenecks" := JArr (JStr <$> ProfileReport.bottlenecks report)]>
  (<["call_tree" := JObj (JInt <$> ProfileReport.call_tree report)]>
  (<["recommendations" := JArr (JStr <$> ProfileReport.recommendations report)]>
  (<["timestamp" := JStr (ProfileReport.timestamp report)]> ∅))))))).

Definition report_dict (report : ProfileReport.t) : json :=
  JObj (report_fields report).

(** *** Arithmetic and comparison on loaded values *)

(** The numbers among the loaded values; [True] and [False] are the
    integers 1 and 0. *)
Inductive num : Type :=
| NInt (z : Z)
| NFloat (f : float).

Definition num_of_json (v : json) : option num :=
  match v with
  | JBool b => Some (NInt (if b then 1 else 0))
  | JInt z => Some (NInt z)
  | JFloat f => Some (NFloat f)
  | _ => None
  end.

(** [v > 0] *)
Definition py_gt_zero (v : json) : exc bool :=
  match num_of_json v with
  | Some (NInt z) => Ok (0 <? z)
  | Some (NFloat f) => Ok (0 <? f)%float
  | None => Raise TypeError
  end.

(** [a - b] *)
Definition py_sub (a b : json) : exc num :=
  match num_of_json a, num_of_json b with
  | Some (NInt x), Some (NInt y) => Ok (NInt (x - y))
  | Some (NFloat x), Some (NFloat y) => Ok (NFloat (x - y)%float)
  | Some (NInt x), Some (NFloat y) =>
      x' ← or_raise OverflowError (int_to_float x); Ok (NFloat (x' - y)%float)
  | Some (NFloat x), Some (NInt y) =>
      y' ← or_raise OverflowError (int_to_float y); Ok (NFloat (x - y')%float)
  | _, _ => Raise TypeError
  end.

(** [a / b] for a number [a] *)
Definition py_truediv (a : num) (b : json) : exc float :=
  match a, num_of_json b with
  | NInt x, Some (NInt y) =>
      if y =? 0 then Raise ZeroDivisionError
      else or_raise OverflowError (int_truediv x y)
  | NFloat x, Some (NFloat y) =>
      if (y =? 0)%float then Raise ZeroDivisionError else Ok (x / y)%float
  | NInt x, Some (NFloat y) =>
      x' ← or_raise OverflowError (int_to_float x);
      if (y =? 0)%float then Raise ZeroDivisionError else Ok (x' / y)%float
  | NFloat x, Some (NInt y) =>
      y' ← or_raise OverflowError (int_to_float y);
      if y =? 0 then Raise ZeroDivisionError else Ok (x / y')%float
  | _, None => Raise TypeError
  end.

(** *** Sets of hashable values *)

(** A hashable loaded value up to Python's equality: numbers are compared
    by value ([True == 1 == 1.0]), so a float with an integral value is
    keyed by that integer, and any other finite float by its sign, mantissa
    and exponent. *)
Inductive hkey : Type :=
| KNone
| KInt (z : Z)
| KFrac (s : bool) (m : positive) (e : Z)
| KInf (s : bool)
| KNan
| KStr (s : string).

#[export] Instance hkey_eq_dec : EqDecision hkey.
Proof. solve_decision. Defined.

Definition hkey_encode (k : hkey) : Z + bool * positive * Z + bool + bool + string :=
  match k with
  | KInt z => inl (inl (inl (inl z)))
  | KFrac s m e => inl (inl (inl (inr (s, m, e))))
  | KInf s => inl (inl (inr s))
  | KNone => inl (inr true)
  | KNan => inl (inr false)
  | KStr s => inr s
  end.

Definition hkey_decode (x : Z + bool * positive * Z + bool + bool + string) : hkey :=
  match x with
  | inl (inl (inl (inl z))) => KInt z
  | inl (inl (inl (inr (s, m, e)))) => KFrac s m e
  | inl (inl (inr s)) => KInf s
  | inl (inr true) => KNone
  | inl (inr false) => KNan
  | inr s => KStr s
  end.

#[export] Instance hkey_countable : Countable hkey.
Proof.
  apply (inj_countable' hkey_encode hkey_decode).
  intros []; reflexivity.
Defined.

Definition key_of_float (f : float) : hkey :=
  match Prim2SF f with
  | S754_nan => KNan
  | S754_infinity s => KInf s
  | S754_zero _ => KInt 0
  | S754_finite s m e =>
      let sgn (z : Z) := if s then - z else z in
      if 0 <=? e then KInt (sgn (Z.pos m * 2 ^ e))
      else if Z.pos m mod 2 ^ (- e) =? 0 then KInt (sgn (Z.pos m / 2 ^ (- e)))
      else KFrac s m e
  end.

(** The key of a hashable value; lists and dictionaries are unhashable. *)
Definition key_of_json (v : json) : option hkey :=
  match v with
  | JNull => Some KNone
  | JBool b => Some (KInt (if b then 1 else 0))
  | JInt z => Some (KInt z)
  | JFloat f => Some (key_of_float f)
  | JStr s => Some (KStr s)
  | JArr _ | JObj _ => None
  end.

Fixpoint chars_of (s : string) : list string :=
  match s with
  | EmptyString => []
  | String c s' => String c EmptyString :: chars_of s'
  end.

(** [set(v)]: the elements of a list, the characters of a string, the keys
    of a dictionary; anything else is not iterable. *)
Definition py_set (v : json) : exc (gset hkey) :=
  match v with
  | JArr l => list_to_set <$> or_raise TypeError (mapM key_of_json l)
  | JStr s => Ok (list_to_set (KStr <$> chars_of s))
  | JObj m => Ok (set_map KStr (dom m))
  | _ => Raise TypeError
  end.

(** [d[key]] *)
Definition py_getitem (d : json) (key : string) : exc json :=
  match d with
  | JObj m => or_raise (KeyError key) (m !! key)
  | _ => Raise TypeError
  end.

(** [d.get(key, [])]: only a dictionary has the method [get]. *)
Definition py_get_or_empty (d : json) (key : string) : exc json :=
  match d with
  | JObj m => Ok (default (JArr []) (m !! key))
  | _ => Raise AttributeError
  end.

(** The dictionary returned by [compare_reports].  The two lists of
    bottlenecks are built by [list] from a set, in an order the language
    leaves open: they are kept as sets. *)
Module Comparison.
Record t : Type := mk {
  baseline_time : json;
  current_time : json;
  time_change_percent : float;
  baseline_calls : json;
  current_calls : json;
  calls_change_percent : float;
  new_bottlenecks : gset hkey;
  fixed_bottlenecks : gset hkey;
  regression_detected : bool
}.
End Comparison.

(** ** Persisting and comparing reports *)

Section Reports.

(** What is at a path that exists, and the two functions of the [json]
    module that the program calls.  [json_dump] is
    [json.dump(_, f, indent=2)].  [json_load] is [open(path)] followed by
    [json.load(f)]: the value loaded, or [None] when one of them raises, and
    [load_failure] is then the exception raised. *)
Context {text : Type}.
Variable json_dump : json -> text.
Variable json_load : text -> option json.
Variable load_failure : text -> load_error.

(** [pathlib]: [Path(p).stem] and [dir / name]. *)
Variable stem : string -> string.
Variable joinpath : string -> string -> string.

(** The files on disk, by path. *)
Abbreviation files := (gmap string text).

(** The branch [format == "json"] of [save_report]: the path of the file
    written and the files afterwards.  [stamp] is the reading
    [time.strftime("%Y%m%d_%H%M%S")] of the clock. *)
Definition save_report_json (output_dir : string) (stamp : string)
  (report : ProfileReport.t) (fs : files) : string * files :=
  let script_name := stem (ProfileReport.script_path report) in
  let filename := script_name ++ "_" ++ stamp ++ ".json" in
  let filepath := joinpath output_dir filename in
  (filepath, <[filepath := json_dump (report_dict report)]> fs).

Definition compare_reports (fs : files) (baseline_path current_path : string)
  : exc Comparison.t :=
  match fs !! baseline_path, fs !! current_path with
  | None, _ =>
      Raise (FileNotFoundError ("Baseline report not found: " ++ baseline_path))
  | Some _, None =>
      Raise (FileNotFoundError ("Current report not found: " ++ current_path))
  | Some baseline_text, Some current_text =>
      baseline ← or_raise (load_exception (load_failure baseline_text))
                   (json_load baseline_text);
      current ← or_raise (load_exception (load_failure current_text))
                  (json_load current_text);
      (* Compare total times *)
      baseline_time ← py_getitem baseline "total_time";
      current_time ← py_getitem current "total_time";
      time_change ←
        (positive ← py_gt_zero baseline_time;
         if positive : bool then
           d ← py_sub current_time baseline_time;
           q ← py_truediv d baseline_time;
           Ok (q * 100)%float
         else Ok 0%float);
      (* Compare call counts *)
      baseline_calls ← py_getitem baseline "total_calls";
      current_calls ← py_getitem current "total_calls";
      calls_change ←
        (positive ← py_gt_zero baseline_calls;
         if positive : bool then
           d ← py_sub current_calls baseline_calls;
           q ← py_truediv d baseline_calls;
           Ok (q * 100)%float
         else Ok 0%float);
      (* Identify new bottlenecks *)
      baseline_bottlenecks ← (py_get_or_empty baseline "bottlenecks" ≫= py_set);
      current_bottlenecks ← (py_get_or_empty current "bottlenecks" ≫= py_set);
      let new_bottlenecks := current_bottlenecks ∖ baseline_bottlenecks in
      let fixed_bottlenecks := baseline_bottlenecks ∖ current_bottlenecks in
      Ok (Comparison.mk baseline_time current_time time_change
            baseline_calls current_calls calls_change
            new_bottlenecks fixed_bottlenecks
            ((10 <? time_change)%float || (20 <? calls_change)%float))
  end.

End Reports.

(** A codec for closed examples: a file is either the serialisation of a
    value or text that [json.load] rejects. *)
Definition doc_text : Type := option json.
Definition doc_dump (v : json) : doc_text := Some v.
Definition doc_load (t : doc_text) : option json := t.
Definition doc_failure (t : doc_text) : load_error := NotJson.

(** ** Profiling a script *)

Section Profiling.

(** The state of the interpreter and of the machine other than [sys.argv]
    and the list objects: files, clock, loaded modules. *)
Context {env : Type}.

(** [sys.argv] is a global bound to a list object; [heap] holds the list
    objects by address. *)
Record world : Type := World {
  sys_argv : positive;
  heap : gmap positive (list string);
  rest : env
}.

(** How the execution of the subject script ends: normally, with an
    exception derived from [Exception], or with another [BaseException]
    such as [SystemExit]. *)
Inductive outcome : Type :=
| Completed
| RaisedException (msg : string)
| RaisedBase (msg : string).

(** The services of the standard library used by [profile]. *)
Variable path_exists : string -> env -> bool.
(** [tempfile.NamedTemporaryFile(mode='w', delete=False, suffix='.prof')]:
    the name of the file created. *)
Variable named_temporary_file : env -> exc string * env.
(** [time.time()] *)
Variable time_time : env -> float.
(** [open], [compile] and [profiler.runcall(exec, code, ...)]: the script
    runs with the whole state at hand, [sys.argv] included. *)
Variable run_script : string -> world -> outcome * world.
(** [profiler.dump_stats(tmp_path)] and [pstats.Stats(tmp_path)] *)
Variable load_stats : string -> env -> exc Stats.t * env.
(** [time.strftime("%Y-%m-%d %H:%M:%S")] *)
Variable strftime : env -> string.
(** [Path(tmp_path).unlink(missing_ok=True)] *)
Variable unlink : string -> env -> env.

Definition set_rest (w : world) (r : env) : world :=
  World (sys_argv w) (heap w) r.

(** The statements of [profile] after the script has completed. *)
Definition analyze (script_path tmp_path : string) (start_time : float)
  (w : world) : exc ProfileReport.t * world :=
  let end_time := time_time (rest w) in
  let total_time := (end_time - start_time)%float in
  match load_stats tmp_path (rest w) with
  | (Raise e, r) => (Raise e, set_rest w r)
  | (Ok stats, r) =>
      let hot_functions := _extract_hot_functions stats total_time default_limit in
      let bottlenecks := _identify_bottlenecks hot_functions in
      let call_tree := _extract_call_tree stats in
      let recommendations := _generate_recommendations hot_functions total_time in
      (Ok (ProfileReport.mk script_path total_time (Stats.total_calls stats)
             hot_functions bottlenecks call_tree recommendations (strftime r)),
       set_rest w r)
  end.

Definition profile (script_path : string) (script_args : list string)
  (w : world) : exc ProfileReport.t * world :=
  if negb (path_exists script_path (rest w)) then
    (Raise (FileNotFoundError ("Script not found: " ++ script_path)), w)
  else
    match named_temporary_file (rest w) with
    | (Raise e, r) => (Raise e, set_rest w r)
    | (Ok tmp_path, r) =>
        let w := set_rest w r in
        (* try: *)
        let old_argv := sys_argv w in
        let argv := fresh (dom (heap w)) in
        let w := World argv (<[argv := script_path :: script_args]> (heap w)) (rest w) in
        let start_time := time_time (rest w) in
        let '(out, w) := run_script script_path w in
        (* finally: sys.argv = old_argv *)
        let w := World old_argv (heap w) (rest w) in
        let '(result, w) :=
          match out with
          | Completed => analyze script_path tmp_path start_time w
          | RaisedException msg =>
              (Raise (RuntimeError ("Script execution failed: " ++ msg)), w)
          | RaisedBase msg => (Raise (BaseException msg), w)
          end in
        (* finally: unlink *)
        (result, set_rest w (unlink tmp_path (rest w)))
    end.

End Profiling.

(** ** Reference definitions and sample inputs *)

(** The lines of the captured output that the loop of
    [_extract_hot_functions] tries to parse: those after the first header
    line, later header lines excluded. *)
Fixpoint table_lines (parsing_stats : bool) (lines : list string) : list string :=
  match lines with
  | [] => []
  | line :: rest =>
      if is_header line then table_lines true rest
      else if parsing_stats then line :: table_lines true rest
      else table_lines false rest
  end.

(** The rows of the table: the table lines with six fields. *)
Definition data_rows (output : string) : list string :=
  List.filter (fun line => (List.length (split_ws 5 line) =? 6)%nat)
    (table_lines false (split_char "010" output)).

(** The cumulative-time column of a row, as the parser reads it. *)
Definition cumtime_column (line : string) : option float :=
  split_ws 5 line !! 3%nat ≫= float_of_field.

(** [l1] is printed before [l2] in a table sorted by descending cumulative
    time. *)
Definition cumtime_ge (l1 l2 : string) : bool :=
  match cumtime_column l1, cumtime_column l2 with
  | Some x, Some y => (y <=? x)%float
  | _, _ => true
  end.

(** Every element is related to every later one. *)
Fixpoint pairwise {A : Type} (r : A -> A -> bool) (l : list A) : bool :=
  match l with
  | [] => true
  | x :: l' => forallb (r x) l' && pairwise r l'
  end.

Definition newline : string := String "010" EmptyString.

(** A table as [pstats] prints it: a recursive function shows its call
    counts as [total/primitive]. *)
Definition sample_output : string :=
  "   Ordered by: cumulative time" ++ newline ++ newline
  ++ "   ncalls  tottime  percall  cumtime  percall filename:lineno(function)" ++ newline
  ++ "        1    0.005    0.005    0.007    0.007 job.py:4(run)" ++ newline
  ++ "     67/1    0.001    0.000    0.002    0.002 job.py:2(fib)" ++ newline
  ++ "    20000    0.002    0.000    0.002    0.000 {built-in method builtins.len}" ++ newline
  ++ newline.

Definition sample_stats : Stats.t :=
  Stats.mk (fun _ => sample_output) 20068 20002 3.

(** The record parsed from the second row of [sample_output] when the run
    took 0.01 s. *)
Definition fib_record : FunctionStats.t :=
  FunctionStats.mk "fib" "job.py" 2 1 67 0x1.0624dd2f1a9fcp-10 0x1.0624dd2f1a9fcp-9
    0 0x1.0624dd2f1a9fcp-9 0x1.4p+4.

(** The recommendations as the three rules produce them, each rule a filter
    over a prefix of the records. *)
Definition rule_messages (hot_functions : list FunctionStats.t)
  (total_time : float) : list string :=
  let high_calls :=
    (fun func => "Consider optimizing " ++ FunctionStats.name func ++ ": called "
                 ++ format_comma (FunctionStats.total_calls func) ++ " times")
      <$> List.filter (fun func => 10000 <? FunctionStats.total_calls func) (take 5 hot_functions) in
  let hot_paths :=
    (fun func => "Hot path detected in " ++ FunctionStats.name func ++ ": "
                 ++ format_fixed 3 (FunctionStats.cumulative_time func) ++ "s ("
                 ++ format_fixed 1 (FunctionStats.percentage func) ++ "%)")
      <$> List.filter (fun func => (total_time * point_two <? FunctionStats.cumulative_time func)%float)
            (take 5 hot_functions) in
  let recursive :=
    (fun func => "Recursive function " ++ FunctionStats.name func ++ ": "
                 ++ str_int (FunctionStats.total_calls func) ++ " calls ("
                 ++ str_int (FunctionStats.primitive_calls func) ++ " primitive)")
      <$> List.filter (fun func => FunctionStats.primitive_calls func <? FunctionStats.total_calls func)
            (take 10 hot_functions) in
  (high_calls ++ hot_paths ++ recursive)%list.

(** A record that trips the first rule only. *)
Definition busy_record : FunctionStats.t :=
  FunctionStats.mk "work" "job.py" 3 10001 10001 0x1p-4 0x1p-4 0 0 0x1.9p+2.

(** A run of [profile] in a world that is a clock: the script takes 0.01 s
    and the profiler hands back [sample_stats]. *)
Definition sample_world : @world float :=
  World 1%positive {[ 1%positive := ["profilescope"; "run"; "job.py"] ]} 0%float.

Definition sample_script (w : @world float) : outcome * @world float :=
  (Completed, World (sys_argv w) (heap w) (rest w + 0x1.47ae147ae147bp-7)%float).

Definition sample_profile (w : @world float) : exc ProfileReport.t * @world float :=
  profile (fun _ _ => true) (fun e => (Ok "stats.prof", e)) (fun e => e)
    (fun _ => sample_script) (fun _ e => (Ok sample_stats, e))
    (fun _ => "2026-02-16 12:00:00") (fun _ e => e) "job.py" ["--fast"] w.

Definition sample_report : ProfileReport.t :=
  match fst (sample_profile sample_world) with
  | Ok report => report
  | Raise _ => ProfileReport.mk "" 0 0 [] [] ∅ [] ""
  end.

(** The expression
    [((current - baseline) / baseline) * 100 if baseline > 0 else 0.0],
    which [compare_reports] evaluates once on the times and once on the call
    counts. *)
Definition percent_change (baseline current : json) : exc float :=
  positive ← py_gt_zero baseline;
  if positive : bool then
    d ← py_sub current baseline;
    q ← py_truediv d baseline;
    Ok (q * 100)%float
  else Ok 0%float.

(** [set(d.get('bottlenecks', []))] *)
Definition bottleneck_set (d : json) : exc (gset hkey) :=
  py_get_or_empty d "bottlenecks" ≫= py_set.

(** *** The persisted report schema *)

Definition is_number (v : json) : bool :=
  match v with JInt _ | JFloat _ => true | _ => false end.
Definition is_integer (v : json) : bool :=
  match v with JInt _ => true | _ => false end.
Definition is_string (v : json) : bool :=
  match v with JStr _ => true | _ => false end.
Definition is_array_of (p : json -> bool) (v : json) : bool :=
  match v with JArr l => forallb p l | _ => false end.

(** The object has the key, with a value of the given kind. *)
Definition has_field (m : gmap string json) (key : string) (p : json -> bool) : bool :=
  match m !! key with Some v => p v | None => false end.

Definition is_function_record (v : json) : bool :=
  match v with
  | JObj m =>
      has_field m "name" is_string && has_field m "filename" is_string
      && has_field m "line_number" is_integer && has_field m "total_calls" is_integer
      && has_field m "primitive_calls" is_integer && has_field m "total_time" is_number
      && has_field m "cumulative_time" is_number && has_field m "time_per_call" is_number
      && has_field m "cumulative_per_call" is_number && has_field m "percentage" is_number
  | _ => false
  end.

Definition is_call_tree (v : json) : bool :=
  match v with
  | JObj m =>
      has_field m "total_calls" is_integer && has_field m "primitive_calls" is_integer
      && has_field m "total_functions" is_integer
  | _ => false
  end.

(** The value has the shape of a persisted report. *)
Definition conforms (v : json) : bool :=
  match v with
  | JObj m =>
      has_field m "script_path" is_string && has_field m "total_time" is_number
      && has_field m "total_calls" is_integer
      && has_field m "hot_functions" (is_array_of is_function_record)
      && has_field m "bottlenecks" (is_array_of is_string)
      && has_field m "call_tree" is_call_tree
      && has_field m "recommendations" (is_array_of is_string)
      && has_field m "timestamp" is_string
  | _ => false
  end.

(** *** Reading a report back from its dictionary *)

Definition str_of_json (v : json) : option string :=
  match v with JStr s => Some s | _ => None end.
Definition int_of_json (v : json) : option Z :=
  match v with JInt z => Some z | _ => None end.
Definition float_of_json (v : json) : option float :=
  match v with JFloat f => Some f | _ => None end.
Definition list_of_json (v : json) : option (list json) :=
  match v with JArr l => Some l | _ => None end.
Definition dict_of_json (v : json) : option (gmap string json) :=
  match v with JObj m => Some m | _ => None end.

Definition function_of_dict (v : json) : option FunctionStats.t :=
  m ← dict_of_json v;
  name ← m !! "name" ≫= str_of_json;
  filename ← m !! "filename" ≫= str_of_json;
  line_number ← m !! "line_number" ≫= int_of_json;
  total_calls ← m !! "total_calls" ≫= int_of_json;
  primitive_calls ← m !! "primitive_calls" ≫= int_of_json;
  total_time ← m !! "total_time" ≫= float_of_json;
  cumulative_time ← m !! "cumulative_time" ≫= float_of_json;
  time_per_call ← m !! "time_per_call" ≫= float_of_json;
  cumulative_per_call ← m !! "cumulative_per_call" ≫= float_of_json;
  percentage ← m !! "percentage" ≫= float_of_json;
  Some (FunctionStats.mk name filename line_number total_calls primitive_calls
          total_time cumulative_time time_per_call cumulative_per_call percentage).

Definition report_of_dict (v : json) : option ProfileReport.t :=
  match v with
  | JObj m =>
      script_path ← m !! "script_path" ≫= str_of_json;
      total_time ← m !! "total_time" ≫= float_of_json;
      total_calls ← m !! "total_calls" ≫= int_of_json;
      functions ← m !! "hot_functions" ≫= list_of_json;
      hot_functions ← mapM function_of_dict functions;
      bottlenecks ← m !! "bottlenecks" ≫= list_of_json;
      bottlenecks ← mapM str_of_json bottlenecks;
      call_tree ← m !! "call_tree" ≫= dict_of_json;
      recommendations ← m !! "recommendations" ≫= list_of_json;
      recommendations ← mapM str_of_json recommendations;
      timestamp ← m !! "timestamp" ≫= str_of_json;
      Some (ProfileReport.mk script_path total_time total_calls hot_functions
              bottlenecks (omap int_of_json call_tree) recommendations timestamp)
  | _ => None
  end.

(** *** Sample files *)

Definition simple_fields (total_time total_calls : json) : gmap string json :=
  <["total_time" := total_time]> (<["total_calls" := total_calls]> ∅).

Definition simple_doc (total_time total_calls : json) : json :=
  JObj (simple_fields total_time total_calls).

(** The report of a run that took no time and made no call. *)
Definition idle_report : ProfileReport.t :=
  ProfileReport.mk "idle.py" 0 0 [] []
    (<["total_calls" := 0]> (<["primitive_calls" := 0]> (<["total_functions" := 0]> ∅)))
    ["No significant performance issues detected."] "2026-02-16 12:00:00".

(** A file that is valid JSON and no report: the time is a string, the call
    count is null and the bottlenecks are a string. *)
Definition malformed_doc : json :=
  JObj (<["total_time" := JStr "fast"]>
       (<["total_calls" := JNull]>
       (<["bottlenecks" := JStr "none"]> ∅))).

Definition sample_files : gmap string doc_text :=
  <["idle.json" := Some (report_dict idle_report)]>
  (<["malformed.json" := Some malformed_doc]>
  (<["negative.json" := Some (simple_doc (JFloat (-1)) (JInt 100))]>
  (<["one.json" := Some (simple_doc (JFloat 1) (JInt 100))]>
  (<["fast.json" := Some (simple_doc (JFloat 1) (JInt 100))]>
  (<["slow.json" := Some (simple_doc (JFloat 0x1.4p+1) (JInt 150))]>
  (<["endless.json" := Some (simple_doc (JFloat infinity) (JInt 100))]>
  (<["sample.json" := Some (report_dict sample_report)]>
  (<["notes.txt" := None]> ∅)))))))).

(** The failures of a comparison of two files that load: they arise where
    [total_time], [total_calls] or [bottlenecks] is used. *)
Definition field_error (e : pyerr) : Prop :=
  (exists key, e = KeyError key) \/ e = TypeError \/ e = OverflowError.

(** The failures of a comparison other than a missing file. *)
Definition comparison_error (e : pyerr) : Prop :=
  (exists failure, e = load_exception failure) \/ field_error e.

(** The change of the claim on two numbers, each an integer or a float:
    [(current - baseline) / baseline * 100] when the baseline is above zero
    and 0.0 otherwise, in the arithmetic of the language.  An integer met
    by a float is converted to a float, and the quotient of two integers is
    rounded to the nearest float; [None] when such a conversion or quotient
    is beyond the floats. *)
Definition relative_change (baseline current : json) : option float :=
  match baseline, current with
  | JFloat b, JFloat c =>
      Some (if (0 <? b)%float then ((c - b) / b * 100)%float else 0%float)
  | JInt b, JInt c =>
      if 0 <? b then q ← int_truediv (c - b) b; Some (q * 100)%float
      else Some 0%float
  | JInt b, JFloat c =>
      if 0 <? b then b' ← int_to_float b; Some ((c - b') / b' * 100)%float
      else Some 0%float
  | JFloat b, JInt c =>
      if (0 <? b)%float then c' ← int_to_float c; Some ((c' - b) / b * 100)%float
      else Some 0%float
  | _, _ => None
  end.

(** Records in descending order of cumulative time: each one is at least
    every later one. *)
Definition descending (hot_functions : list FunctionStats.t) : Prop :=
  StronglySorted
    (fun a b => (FunctionStats.cumulative_time b <=? FunctionStats.cumulative_time a)%float = true)
    hot_functions.

(** * The renderers, the other formats of [save_report] and the command line *)

(** ** Laying out text *)

(** Appending lists of lines, where [++] appends strings. *)
#[local] Infix "+l+" := List.app (at level 62, right associativity).

(** [f"{s:<n}"]: [s] followed by spaces up to the width [n]; a longer [s] is
    kept whole. *)
Definition ljust (n : nat) (s : string) : string :=
  s ++ repeat_char " " (n - String.length s).

(** ['\n'.join(lines)] *)
Fixpoint join_lines (lines : list string) : string :=
  match lines with
  | [] => ""
  | [line] => line
  | line :: rest => line ++ newline ++ join_lines rest
  end.

(** [''.join(parts)], the text of successive [f.write] calls. *)
Definition concat_text (parts : list string) : string :=
  fold_right String.append "" parts.

(** [enumerate(items, 1)] rendered by [f"{i}. {item}"]. *)
Fixpoint numbered_from (i : Z) (items : list string) : list string :=
  match items with
  | [] => []
  | item :: rest => (str_int i ++ ". " ++ item) :: numbered_from (i + 1) rest
  end.

Definition numbered (items : list string) : list string := numbered_from 1 items.

(** ** The terminal report *)

Definition rule_line : string := repeat_char "=" 80.
Definition dash_line : string := repeat_char "-" 80.

(** [func.name[:38] if len(func.name) > 38 else func.name] *)
Definition short_name (name : string) : string :=
  if (38 <? String.length name)%nat then substring 0 38 name else name.

(** One row of the table of hot functions. *)
Definition terminal_row (func : FunctionStats.t) : string :=
  ljust 40 (short_name (FunctionStats.name func)) ++ " "
  ++ ljust 12 (format_fixed 3 (FunctionStats.cumulative_time func)) ++ " "
  ++ ljust 12 (format_comma (FunctionStats.total_calls func)) ++ " "
  ++ ljust 8 (format_fixed 1 (FunctionStats.percentage func)).

Definition terminal_header (report : ProfileReport.t) : list string :=
  [ rule_line; "PROFILESCOPE PERFORMANCE REPORT"; rule_line;
    "Script: " ++ ProfileReport.script_path report;
    "Total Time: " ++ format_fixed 3 (ProfileReport.total_time report) ++ "s";
    "Total Calls: " ++ format_comma (ProfileReport.total_calls report);
    "Timestamp: " ++ ProfileReport.timestamp report;
    rule_line; "" ].

Definition terminal_hot_functions (hot_functions : list FunctionStats.t) : list string :=
  match hot_functions with
  | [] => []
  | _ =>
      [ "[HOT FUNCTIONS - Top 10 by Cumulative Time]"; dash_line;
        ljust 40 "Function" ++ " " ++ ljust 12 "Time (s)" ++ " "
        ++ ljust 12 "Calls" ++ " " ++ ljust 8 "%";
        dash_line ]
      +l+ (terminal_row <$> take 10 hot_functions) +l+ [""]
  end.

Definition terminal_bottlenecks (bottlenecks : list string) : list string :=
  match bottlenecks with
  | [] => []
  | _ =>
      [ "[BOTTLENECKS DETECTED]"; dash_line ]
      +l+ ((fun bottleneck => "[!] " ++ bottleneck) <$> bottlenecks) +l+ [""]
  end.

Definition terminal_recommendations (recommendations : list string) : list string :=
  match recommendations with
  | [] => []
  | _ =>
      [ "[OPTIMIZATION RECOMMENDATIONS]"; dash_line ]
      +l+ numbered recommendations +l+ [""]
  end.

(** The call tree summary: each subscript of [report.call_tree] may raise
    [KeyError]. *)
Definition terminal_call_tree (call_tree : gmap string Z) : exc (list string) :=
  total_functions ← or_raise (KeyError "total_functions") (call_tree !! "total_functions");
  primitive_calls ← or_raise (KeyError "primitive_calls") (call_tree !! "primitive_calls");
  total_calls ← or_raise (KeyError "total_calls") (call_tree !! "total_calls");
  Ok [ "[CALL TREE SUMMARY]"; dash_line;
       "Total Functions: " ++ str_int total_functions;
       "Primitive Calls: " ++ format_comma primitive_calls;
       "Total Calls: " ++ format_comma total_calls;
       "" ].

(** The list [lines] at the end of [format_terminal_report]. *)
Definition terminal_lines (report : ProfileReport.t) (show_tree : bool)
  : exc (list string) :=
  let lines :=
    terminal_header report
    +l+ terminal_hot_functions (ProfileReport.hot_functions report)
    +l+ terminal_bottlenecks (ProfileReport.bottlenecks report)
    +l+ terminal_recommendations (ProfileReport.recommendations report) in
  tree ← (if show_tree then terminal_call_tree (ProfileReport.call_tree report)
          else Ok []);
  Ok (lines +l+ tree +l+ [rule_line]).

(** [format_terminal_report], for a report whose integers the interpreter
    converts to text (see [format_comma]); the one exception modelled is the
    [KeyError] of the call tree. *)
Definition format_terminal_report (report : ProfileReport.t) (show_tree : bool)
  : exc string :=
  join_lines <$> terminal_lines report show_tree.

(** ** The Markdown and HTML reports *)

Definition markdown_row (func : FunctionStats.t) : string :=
  "| " ++ FunctionStats.name func ++ " | "
  ++ format_fixed 3 (FunctionStats.cumulative_time func) ++ " | "
  ++ format_comma (FunctionStats.total_calls func) ++ " | "
  ++ format_fixed 1 (FunctionStats.percentage func) ++ "% |" ++ newline.

(** The text written by the branch [format == "markdown"]; [file_name] is
    [Path(report.script_path).name]. *)
Definition markdown_text (file_name : string) (report : ProfileReport.t) : string :=
  concat_text
    ([ "# Performance Report: " ++ file_name ++ newline ++ newline;
       "**Total Time:** " ++ format_fixed 3 (ProfileReport.total_time report) ++ "s" ++ newline;
       "**Total Calls:** " ++ format_comma (ProfileReport.total_calls report) ++ newline;
       "**Timestamp:** " ++ ProfileReport.timestamp report ++ newline ++ newline;
       "## Hot Functions" ++ newline ++ newline;
       "| Function | Time (s) | Calls | % |" ++ newline;
       "|----------|----------|-------|---|" ++ newline ]
     +l+ (markdown_row <$> take 10 (ProfileReport.hot_functions report))
     +l+ [ newline ]
     +l+ match ProfileReport.bottlenecks report with
         | [] => []
         | bottlenecks =>
             [ "## Bottlenecks" ++ newline ++ newline ]
             +l+ ((fun bottleneck => "- " ++ bottleneck ++ newline) <$> bottlenecks)
             +l+ [ newline ]
         end
     +l+ match ProfileReport.recommendations report with
         | [] => []
         | recommendations =>
             [ "## Recommendations" ++ newline ++ newline ]
             +l+ ((fun line => line ++ newline) <$> numbered recommendations)
             +l+ [ newline ]
         end).

Definition html_style : string :=
  "<style>body{font-family:Arial;margin:20px;}table{border-collapse:collapse;width:100%;}th,td{border:1px solid #ddd;padding:8px;text-align:left;}th{background:#4CAF50;color:white;}</style>".

Definition html_row (func : FunctionStats.t) : string :=
  "<tr><td>" ++ FunctionStats.name func ++ "</td><td>"
  ++ format_fixed 3 (FunctionStats.cumulative_time func) ++ "</td><td>"
  ++ format_comma (FunctionStats.total_calls func) ++ "</td><td>"
  ++ format_fixed 1 (FunctionStats.percentage func) ++ "%</td></tr>".

(** The text written by the branch [format == "html"]. *)
Definition html_text (file_name : string) (report : ProfileReport.t) : string :=
  concat_text
    ([ "<html><head><title>ProfileScope Report</title>";
       html_style;
       "</head><body>";
       "<h1>Performance Report: " ++ file_name ++ "</h1>";
       "<p><strong>Total Time:</strong> " ++ format_fixed 3 (ProfileReport.total_time report) ++ "s</p>";
       "<p><strong>Total Calls:</strong> " ++ format_comma (ProfileReport.total_calls report) ++ "</p>";
       "<p><strong>Timestamp:</strong> " ++ ProfileReport.timestamp report ++ "</p>";
       "<h2>Hot Functions</h2>";
       "<table><tr><th>Function</th><th>Time (s)</th><th>Calls</th><th>%</th></tr>" ]
     +l+ (html_row <$> take 10 (ProfileReport.hot_functions report))
     +l+ [ "</table>" ]
     +l+ match ProfileReport.bottlenecks report with
         | [] => []
         | bottlenecks =>
             [ "<h2>Bottlenecks</h2><ul>" ]
             +l+ ((fun bottleneck => "<li>" ++ bottleneck ++ "</li>") <$> bottlenecks)
             +l+ [ "</ul>" ]
         end
     +l+ match ProfileReport.recommendations report with
         | [] => []
         | recommendations =>
             [ "<h2>Recommendations</h2><ol>" ]
             +l+ ((fun rec => "<li>" ++ rec ++ "</li>") <$> recommendations)
             +l+ [ "</ol>" ]
         end
     +l+ [ "</body></html>" ]).

(** ** [save_report] with its three formats *)

Section Saving.

Context {text : Type}.
Variable json_dump : json -> text.
(** The content of a file opened in text mode to which the given string was
    written. *)
Variable plain : string -> text.
(** [pathlib]: [Path(p).stem], [Path(p).name] and [dir / name]. *)
Variable stem : string -> string.
Variable path_name : string -> string.
Variable joinpath : string -> string -> string.

(** [save_report]: the path returned, or the exception raised, and the files
    afterwards.  [stamp] is the reading [time.strftime("%Y%m%d_%H%M%S")].
    The report is one whose integers the interpreter converts to text (see
    [format_comma]), and writing the file does not fail: the one exception
    modelled is the [ValueError] of an unsupported format. *)
Definition save_report (output_dir : string) (stamp : string)
  (report : ProfileReport.t) (format : string) (fs : gmap string text)
  : exc string * gmap string text :=
  let script_name := stem (ProfileReport.script_path report) in
  if String.eqb format "json" then
    let '(filepath, fs) :=
      save_report_json json_dump stem joinpath output_dir stamp report fs in
    (Ok filepath, fs)
  else if String.eqb format "markdown" then
    let filename := script_name ++ "_" ++ stamp ++ ".md" in
    let filepath := joinpath output_dir filename in
    (Ok filepath,
     <[filepath := plain (markdown_text (path_name (ProfileReport.script_path report))
                            report)]> fs)
  else if String.eqb format "html" then
    let filename := script_name ++ "_" ++ stamp ++ ".html" in
    let filepath := joinpath output_dir filename in
    (Ok filepath,
     <[filepath := plain (html_text (path_name (ProfileReport.script_path report))
                            report)]> fs)
  else (Raise (ValueError ("Unsupported format: " ++ format)), fs).

End Saving.

(** ** The command [compare] of [main] *)

(** The exceptions that [except Exception] catches: all but those that
    derive from [BaseException] only. *)
Definition is_exception (e : pyerr) : bool :=
  match e with
  | BaseException _ => false
  | _ => true
  end.

(** [f"{v:.3f}"] on a loaded value: the exception raised, if any.  A number
    is formatted, an integer being converted to a float first. *)
Definition format_fixed_error (v : json) : option pyerr :=
  match v with
  | JStr _ => Some (ValueError "Unknown format code 'f' for object of type 'str'")
  | JNull | JArr _ | JObj _ => Some TypeError
  | JInt z => match int_to_float z with Some _ => None | None => Some OverflowError end
  | JBool _ | JFloat _ => None
  end.

(** [f"{v:,}"] on a loaded value: the exception raised, if any. *)
Definition format_comma_error (v : json) : option pyerr :=
  match v with
  | JStr _ => Some (ValueError "Cannot specify ',' with 's'.")
  | JNull | JArr _ | JObj _ => Some TypeError
  | JBool _ | JInt _ | JFloat _ => None
  end.

Definition raise_if (o : option pyerr) : exc unit :=
  match o with
  | Some e => Raise e
  | None => Ok tt
  end.

(** The lines that [main] prints for a comparison, in order, as far as they
    can raise: the two times with [.3f], the two call counts with [,].  The
    changes are floats and the bottlenecks are printed with [{bottleneck}],
    which accepts every value. *)
Definition print_comparison (c : Comparison.t) : exc unit :=
  _ ← raise_if (format_fixed_error (Comparison.baseline_time c));
  _ ← raise_if (format_fixed_error (Comparison.current_time c));
  _ ← raise_if (format_comma_error (Comparison.baseline_calls c));
  raise_if (format_comma_error (Comparison.current_calls c)).

Section Command.

Context {text : Type}.
Variable json_load : text -> option json.
Variable load_failure : text -> load_error.
(** [ProfileScope()]: the outcome of
    [(Path.cwd() / "profilescope_reports").mkdir(parents=True, exist_ok=True)],
    which creates a directory and no file. *)
Variable make_output_dir : exc unit.

(** The value returned by [main] for [compare baseline current], or the
    exception that leaves it.  The text printed is not modelled, only whether
    printing raises. *)
Definition main_compare (fs : gmap string text) (baseline current : string) : exc Z :=
  let body : exc Z :=
    _ ← make_output_dir;
    comparison ← compare_reports json_load load_failure fs baseline current;
    _ ← print_comparison comparison;
    if Comparison.regression_detected comparison then Ok 1 else Ok 0 in
  match body with
  | Ok status => Ok status
  | Raise e => if is_exception e then Ok 1 else Raise e
  end.

End Command.

(** ** The command [run] of [main] *)

Section Run.

Context {env text : Type}.

(** The services used by [profile]. *)
Variable path_exists : string -> env -> bool.
Variable named_temporary_file : env -> exc string * env.
Variable time_time : env -> float.
Variable run_script : string -> @world env -> outcome * @world env.
Variable load_stats : string -> env -> exc Stats.t * env.
Variable strftime : env -> string.
Variable unlink : string -> env -> env.

(** The services used by [save_report]; [stamp] is
    [time.strftime("%Y%m%d_%H%M%S")], [files] the files of the machine and
    [set_files] the machine with other files. *)
Variable json_dump : json -> text.
Variable plain : string -> text.
Variable stem : string -> string.
Variable path_name : string -> string.
Variable joinpath : string -> string -> string.
Variable stamp : env -> string.
Variable files : env -> gmap string text.
Variable set_files : gmap string text -> env -> env.

(** [ProfileScope(output_dir=args.output_dir)] *)
Variable make_output_dir : exc unit.

(** The three [except] clauses of the command, which all return 1. *)
Definition caught (result : exc Z) : exc Z :=
  match result with
  | Ok status => Ok status
  | Raise e => if is_exception e then Ok 1 else Raise e
  end.

(** The value returned by [main] for [run script script_args] with the
    options [--format] and [--tree], or the exception that leaves it, and the
    machine afterwards.  The text printed is not modelled: the last line
    formats a float with [.3f] and an integer with [,], which never
    raises. *)
Definition main_run (output_dir script : string) (script_args : list string)
  (format : string) (tree : bool) (w : world) : exc Z * world :=
  match make_output_dir with
  | Raise e => (caught (Raise e), w)
  | Ok _ =>
      let '(result, w) :=
        profile path_exists named_temporary_file time_time run_script load_stats
          strftime unlink script script_args w in
      match result with
      | Raise e => (caught (Raise e), w)
      | Ok report =>
          if String.eqb format "terminal" then
            (caught (_ ← format_terminal_report report tree; Ok 0), w)
          else
            let '(saved, fs) :=
              save_report json_dump plain stem path_name joinpath output_dir
                (stamp (rest w)) report format (files (rest w)) in
            (caught (_ ← saved; Ok 0), set_rest w (set_files fs (rest w)))
      end
  end.

End Run.


(** The command [run] on the machine of [sample_profile], which keeps no
    file. *)
Definition sample_run (format : string) (tree : bool) (w : @world float)
  : exc Z * @world float :=
  main_run (text := doc_text) (fun _ _ => true) (fun e => (Ok "stats.prof", e))
    (fun e => e) (fun _ => sample_script) (fun _ e => (Ok sample_stats, e))
    (fun _ => "2026-02-16 12:00:00") (fun _ e => e)
    doc_dump (fun s => Some (JStr s)) (fun p => p) (fun p => p)
    (fun d n => d ++ "/" ++ n) (fun _ => "20260216_120000")
    (fun _ => ∅) (fun _ e => e) (Ok tt)
    "profilescope_reports" "job.py" ["--fast"] format tree w.

(** * Properties *)

(** ** The analyzer *)

Section Analyzer.

Import FunctionStats.

(** The loop that appends a message per matching element is a filter
    followed by a map. *)
Lemma append_matching_filter {A : Type} (cond : A -> bool) (msg : A -> string)
  (xs : list A) (out : list string) :
  append_matching cond msg out xs = (out ++ (msg <$> List.filter cond xs))%list.
Proof.
  revert out. induction xs as [|x xs IH]; intros out; simpl.
  - unfold append_matching. simpl. by rewrite app_nil_r.
  - unfold append_matching in *. simpl. rewrite IH.
    destruct (cond x); simpl; [by rewrite <- app_assoc | done].
Qed.

(** C5. The bottleneck list is made of the records among the first ten whose
    percentage is strictly greater than 10.0, in order, each rendered as
    "name (percentage with one decimal% of total time)"; a record is selected
    exactly when it is among the first ten and exceeds 10.0, and a record
    whose percentage is exactly 10.0 is never selected. *)
Theorem identify_bottlenecks_strict (hot_functions : list FunctionStats.t) :
  let selected :=
    List.filter (fun func => (10 <? percentage func)%float) (take 10 hot_functions) in
  _identify_bottlenecks hot_functions =
    (fun func => name func ++ " (" ++ format_fixed 1 (percentage func)
                 ++ "% of total time)") <$> selected
  /\ (forall func, In func selected <->
        In func (take 10 hot_functions) /\ (10 <? percentage func)%float = true)
  /\ (forall func, percentage func = 10%float -> ~ In func selected)
  /\ (forall func, percentage func = 10%float -> _identify_bottlenecks [func] = []).
Proof.
  intros selected. split; [|split; [|split]].
  - unfold _identify_bottlenecks. by rewrite append_matching_filter.
  - intros func. unfold selected. rewrite filter_In. tauto.
  - intros func Hp Hin. apply filter_In in Hin as [_ Hin].
    rewrite Hp in Hin. vm_compute in Hin. discriminate.
  - intros func Hp. unfold _identify_bottlenecks.
    rewrite append_matching_filter. simpl. rewrite Hp.
    by vm_compute.
Qed.

(** C3 (as amended). The recommendations are the messages of the three rules
    in their fixed order, each rule applied independently to its prefix of
    the records (first 5, first 5, first 10); the message of the first rule
    writes the call count with thousands separators.  An empty record list
    gives the single "No significant performance issues detected.", and a
    non-empty list on which no rule fires gives the single "Performance looks
    good! No major bottlenecks detected.". *)
Theorem generate_recommendations_rules (hot_functions : list FunctionStats.t)
  (total_time : float) :
  _generate_recommendations hot_functions total_time =
    match hot_functions with
    | [] => ["No significant performance issues detected."]
    | _ =>
        match rule_messages hot_functions total_time with
        | [] => ["Performance looks good! No major bottlenecks detected."]
        | messages => messages
        end
    end.
Proof.
  unfold _generate_recommendations, rule_messages.
  destruct hot_functions as [|f hot]; [done|].
  rewrite !append_matching_filter, app_nil_l, <- app_assoc.
  fold high_calls_message hot_path_message recursive_message.
  by destruct (_ ++ _)%list.
Qed.

(** C3, counterexample. For a function called 10001 times the first rule
    writes "called 10,001 times", not the "called 10001 times" that the plain
    format of the claim gives. *)
Lemma generate_recommendations_comma :
  _generate_recommendations [busy_record] 1 =
    ["Consider optimizing work: called 10,001 times"]
  /\ _generate_recommendations [busy_record] 1 <>
    ["Consider optimizing " ++ name busy_record ++ ": called "
     ++ str_int (total_calls busy_record) ++ " times"].
Proof. split; [by vm_compute | vm_compute; discriminate]. Qed.

End Analyzer.

(** ** Python strings: splitting and stripping *)

Section Strings.

Lemma append_cons (c : ascii) (a b : string) : String c a ++ b = String c (a ++ b).
Proof. reflexivity. Qed.

Lemma append_nil (b : string) : "" ++ b = b.
Proof. reflexivity. Qed.


Lemma contains_char_app (c : ascii) (a b : string) :
  contains_char c (a ++ b) = contains_char c a || contains_char c b.
Proof.
  induction a as [|d a IH]; simpl; [done|].
  rewrite IH. by rewrite orb_assoc.
Qed.

Lemma split_char_nonempty (sep : ascii) (s : string) : split_char sep s <> [].
Proof.
  induction s as [|c s IH]; simpl; [done|].
  destruct (Ascii.eqb c sep); [done|].
  by destruct (split_char sep s).
Qed.


(** A single field means that the separator is absent. *)
Lemma split_char_single (sep : ascii) (s w : string) :
  split_char sep s = [w] -> contains_char sep s = false /\ w = s.
Proof.
  revert w. induction s as [|c s IH]; simpl; intros w H.
  - by inversion H.
  - rewrite (Ascii.eqb_sym sep c). destruct (Ascii.eqb c sep).
    + inversion H as [[H1 H2]]. by apply split_char_nonempty in H2.
    + destruct (split_char sep s) as [|w' ws] eqn:E; [by apply split_char_nonempty in E|].
      inversion H; subst. destruct (IH w' eq_refl) as [-> ->]. done.
Qed.

(** Splitting distributes over a separator. *)
Lemma split_char_sep (sep : ascii) (a b : string) :
  split_char sep (a ++ String sep b) = (split_char sep a ++ split_char sep b)%list.
Proof.
  induction a as [|c a IH]; simpl.
  - by rewrite Ascii.eqb_refl.
  - destruct (Ascii.eqb c sep); [by rewrite IH|].
    rewrite IH. destruct (split_char sep a) as [|w ws] eqn:E; [|done].
    by apply split_char_nonempty in E.
Qed.






End Strings.

(** Appending to a literal, unfolded. *)
Ltac push_append := rewrite ?append_cons, ?append_nil.

(** ** The stats parser *)

Section Parser.

Import FunctionStats.



End Parser.

(** ** The rows of the table *)

Section Rows.

Import FunctionStats.

(** What a retained row says about its record. *)
Lemma parse_stats_line_fields (total_time : float) (line : string) (r : FunctionStats.t) :
  parse_stats_line total_time line = Some r ->
  exists ncalls_str p1 p2 p3 p4 func_info,
    split_ws 5 line = [ncalls_str; p1; p2; p3; p4; func_info]
    /\ float_of_field p3 = Some (cumulative_time r)
    /\ parse_func_info func_info = Some (filename r, line_number r, name r)
    /\ parse_ncalls ncalls_str = Some (primitive_calls r, total_calls r).
Proof.
  unfold parse_stats_line. intros H.
  destruct (split_ws 5 line) as [|f0 [|f1 [|f2 [|f3 [|f4 [|f5 [|]]]]]]]; try done.
  exists f0, f1, f2, f3, f4, f5. split; [done|].
  destruct (float_of_field f1); [|done]. simpl in H.
  destruct (if negb (String.eqb f2 "0.000") then float_of_field f2 else Some 0%float);
    [|done]. simpl in H.
  destruct (float_of_field f3); [|done]. simpl in H.
  destruct (if negb (String.eqb f4 "0.000") then float_of_field f4 else Some 0%float);
    [|done]. simpl in H.
  destruct (parse_func_info f5) as [[[fn ln] nm]|]; [|done]. simpl in H.
  destruct (parse_ncalls f0) as [[p t]|]; [|done]. simpl in H.
  by inversion H.
Qed.

(** The loop keeps, in order, the table lines that parse. *)
Lemma scan_lines_omap (total_time : float) (lines : list string) :
  forall parsing_stats hot_functions,
    scan_lines total_time parsing_stats hot_functions lines
    = (hot_functions
       ++ omap (parse_stats_line total_time) (table_lines parsing_stats lines))%list.
Proof.
  induction lines as [|line rest IH]; intros b hot; simpl.
  - by rewrite app_nil_r.
  - destruct (is_header line); [apply IH|].
    destruct b; simpl; [|apply IH].
    destruct (parse_stats_line total_time line); rewrite IH; [|done].
    by rewrite <- app_assoc.
Qed.

Lemma table_lines_subset (lines : list string) :
  forall parsing_stats line,
    In line (table_lines parsing_stats lines) -> In line lines.
Proof.
  induction lines as [|l rest IH]; intros b line; simpl; [done|].
  destruct (is_header l); [eauto|].
  destruct b; simpl; [|eauto].
  intros [->|H]; eauto.
Qed.

(** Every record of the result comes from a line of the output. *)
Lemma parse_output_from_line (output : string) (total_time : float) (r : FunctionStats.t) :
  In r (parse_output output total_time) ->
  exists line, In line (split_char "010" output)
               /\ parse_stats_line total_time line = Some r.
Proof.
  unfold parse_output. rewrite scan_lines_omap, app_nil_l.
  intros H. apply list_elem_of_In, list_elem_of_omap in H as (line & Hin & Hp).
  exists line. split; [|done].
  eapply table_lines_subset, list_elem_of_In, Hin.
Qed.

Lemma parse_ncalls_plain (ncalls_str : string) (p t : Z) :
  contains_char "/" ncalls_str = false ->
  parse_ncalls ncalls_str = Some (p, t) ->
  int_of_field ncalls_str = Some p /\ t = p.
Proof.
  unfold parse_ncalls. intros ->.
  destruct (int_of_field ncalls_str); simpl; [|done].
  intros H. by inversion H.
Qed.

Lemma parse_ncalls_slash (P T : string) (p t : Z) :
  parse_ncalls (P ++ "/" ++ T) = Some (p, t) ->
  int_of_field P = Some p /\ int_of_field T = Some t.
Proof.
  unfold parse_ncalls. push_append.
  rewrite contains_char_app. simpl. rewrite orb_true_r.
  rewrite split_char_sep.
  destruct (split_char "/" P) as [|a [|a' la]] eqn:EP;
    [by apply split_char_nonempty in EP| |].
  - destruct (split_char "/" T) as [|b [|b' lb]] eqn:ET;
      [by apply split_char_nonempty in ET| |done].
    apply split_char_single in EP as [_ ->].
    apply split_char_single in ET as [_ ->]. simpl.
    destruct (int_of_field P); simpl; [|done].
    destruct (int_of_field T); simpl; [|done].
    intros H. by inversion H.
  - simpl. destruct (split_char "/" T) as [|b lb] eqn:ET;
      [by apply split_char_nonempty in ET|].
    by destruct la.
Qed.

(** Every record kept by the parser comes from a line of the output whose
    call-count field decides its two counts: the parser takes the number
    before the slash of a field [X/Y] for the primitive calls and the number
    after it for the total calls, without comparing them, and a field [N]
    gives N for both. *)
Lemma parse_output_call_counts (output : string) (total_time : float)
  (r : FunctionStats.t) :
  In r (parse_output output total_time) ->
  exists line ncalls_str,
    In line (split_char "010" output)
    /\ parse_stats_line total_time line = Some r
    /\ split_ws 5 line !! 0%nat = Some ncalls_str
    /\ (forall P T, ncalls_str = P ++ "/" ++ T ->
          int_of_field P = Some (primitive_calls r)
          /\ int_of_field T = Some (total_calls r))
    /\ (contains_char "/" ncalls_str = false ->
          int_of_field ncalls_str = Some (primitive_calls r)
          /\ total_calls r = primitive_calls r).
Proof.
  intros H. apply parse_output_from_line in H as (line & Hin & Hp).
  destruct (parse_stats_line_fields _ _ _ Hp)
    as (nc & p1 & p2 & p3 & p4 & fi & Hs & _ & _ & Hn).
  exists line, nc. rewrite Hs. repeat split; try done.
  - by apply (parse_ncalls_slash P T _ (total_calls r)); subst.
  - by apply (parse_ncalls_slash P T (primitive_calls r)); subst.
  - by apply (parse_ncalls_plain nc _ (total_calls r)).
  - by apply (parse_ncalls_plain nc (primitive_calls r)).
Qed.

(** C1. The code at a failing input.  For a recursive function [pstats]
    prints the total calls before the slash and the primitive calls after
    it: the row [67/1] of [sample_output] stands for 67 calls, 1 of them
    primitive.  The parser reads the two numbers the other way round: the
    record has 67 primitive calls and 1 total call, so its total calls are
    below its primitive calls, the test [primitive_calls < total_calls] of
    the rule for recursive functions is false on it, and the
    recommendations do not mention the recursive function. *)
Theorem parse_output_recursive_row :
  let total_time := 0x1.47ae147ae147bp-7%float in
  let hot_functions := parse_output sample_output total_time in
  hot_functions !! 1%nat = Some fib_record
  /\ primitive_calls fib_record = 67
  /\ total_calls fib_record = 1
  /\ ~ (total_calls fib_record >= primitive_calls fib_record)
  /\ (primitive_calls fib_record <? total_calls fib_record) = false
  /\ _generate_recommendations hot_functions total_time
     = [ "Consider optimizing {built-in method builtins.len}: called 20,000 times";
         "Hot path detected in run: 0.007s (70.0%)" ].
Proof.
  split; [by vm_compute|]. split; [done|]. split; [done|].
  split; [vm_compute; intros H; by apply H|].
  split; [done|]. by vm_compute.
Qed.

End Rows.

(** ** Order and length of the hot functions *)

Section Order.

Import FunctionStats.

Lemma omap_filter {A B : Type} (f : A -> option B) (p : A -> bool) (l : list A) :
  (forall x, is_Some (f x) -> p x = true) ->
  omap f (List.filter p l) = omap f l.
Proof.
  intros Hp. induction l as [|x l IH]; [done|].
  cbn [List.filter omap list_omap].
  destruct (p x) eqn:E; cbn [omap list_omap]; rewrite IH; [done|].
  destruct (f x) eqn:F; [|done].
  rewrite Hp in E; [done | by rewrite F].
Qed.

Lemma length_omap {A B : Type} (f : A -> option B) (l : list A) :
  (List.length (omap f l) <= List.length l)%nat.
Proof.
  induction l as [|x l IH]; [done|].
  cbn [omap list_omap]. destruct (f x); cbn [List.length]; lia.
Qed.

Lemma Forall_omap {A B : Type} (f : A -> option B) (P : A -> Prop) (Q : B -> Prop)
  (l : list A) :
  (forall x y, f x = Some y -> P x -> Q y) -> Forall P l -> Forall Q (omap f l).
Proof.
  intros H. induction 1 as [|x l Hx Hl IH]; [constructor|].
  cbn [omap list_omap]. destruct (f x) eqn:E; [constructor; eauto | done].
Qed.

(** Dropping and translating elements keeps a pairwise order. *)
Lemma pairwise_omap {A B : Type} (f : A -> option B) (rb : A -> A -> bool)
  (R : B -> B -> Prop) (l : list A) :
  (forall x y a b, f x = Some a -> f y = Some b -> rb x y = true -> R a b) ->
  pairwise rb l = true -> StronglySorted R (omap f l).
Proof.
  intros HR. induction l as [|x l IH]; [constructor|].
  cbn [omap list_omap pairwise].
  intros H. apply andb_true_iff in H as [Hx Hl].
  destruct (f x) as [a|] eqn:E; [|by apply IH].
  constructor; [by apply IH|].
  apply (Forall_omap f (fun y => rb x y = true)); [by eauto|].
  apply List.Forall_forall. intros y Hy.
  by apply (proj1 (forallb_forall _ _) Hx).
Qed.

Lemma parse_stats_line_row (total_time : float) (line : string) :
  is_Some (parse_stats_line total_time line) ->
  (List.length (split_ws 5 line) =? 6)%nat = true.
Proof.
  intros [r Hr]. apply parse_stats_line_fields in Hr
    as (f0 & f1 & f2 & f3 & f4 & f5 & -> & _). done.
Qed.

Lemma parse_stats_line_column (total_time : float) (line : string) (r : FunctionStats.t) :
  parse_stats_line total_time line = Some r ->
  cumtime_column line = Some (cumulative_time r).
Proof.
  intros Hr. apply parse_stats_line_fields in Hr
    as (f0 & f1 & f2 & f3 & f4 & f5 & Hs & Hc & _).
  unfold cumtime_column. by rewrite Hs.
Qed.

(** The parser keeps the order of the rows and adds none: when the table has
    at most [limit] rows, in descending order of the cumulative-time
    column, so has the result. *)
Lemma extract_hot_functions_order (stats : Stats.t) (total_time : float) (limit : nat) :
  (List.length (data_rows (Stats.print_stats stats limit)) <= limit)%nat ->
  pairwise cumtime_ge (data_rows (Stats.print_stats stats limit)) = true ->
  (List.length (_extract_hot_functions stats total_time limit) <= limit)%nat
  /\ descending (_extract_hot_functions stats total_time limit).
Proof.
  intros Hlen Hsorted.
  unfold _extract_hot_functions, parse_output.
  rewrite scan_lines_omap, app_nil_l.
  rewrite <- (omap_filter _ (fun line => (List.length (split_ws 5 line) =? 6)%nat))
    by apply parse_stats_line_row.
  fold (data_rows (Stats.print_stats stats limit)). split.
  - etrans; [apply length_omap | done].
  - apply (pairwise_omap _ cumtime_ge); [|done].
    intros x y a b Hx Hy. unfold cumtime_ge.
    by rewrite (parse_stats_line_column _ _ _ Hx), (parse_stats_line_column _ _ _ Hy).
Qed.

End Order.

(** ** Profiling a script *)

Section ProfilingProperties.

Context {env : Type}.
Variable path_exists : string -> env -> bool.
Variable named_temporary_file : env -> exc string * env.
Variable time_time : env -> float.
Variable run_script : string -> @world env -> outcome * @world env.
Variable load_stats : string -> env -> exc Stats.t * env.
Variable strftime : env -> string.
Variable unlink : string -> env -> env.

Abbreviation profile' :=
  (profile path_exists named_temporary_file time_time run_script load_stats
     strftime unlink).

Lemma analyze_argv (script_path tmp_path : string) (start_time : float) (w : world) :
  sys_argv (snd (analyze time_time load_stats strftime script_path tmp_path start_time w))
  = sys_argv w.
Proof. unfold analyze. by destruct (load_stats _ _) as [[stats|e] r]. Qed.

(** C10. Whatever the script does, [sys.argv] included, and however [profile]
    ends (a report, the error of a missing script, the error wrapping an
    exception of the script, or an exception passing through), [sys.argv] is
    bound afterwards to the list object it was bound to before the call. *)
Theorem profile_restores_argv (script_path : string) (script_args : list string)
  (w : world) :
  sys_argv (snd (profile' script_path script_args w)) = sys_argv w.
Proof.
  unfold profile.
  destruct (path_exists script_path (rest w)); simpl; [|done].
  destruct (named_temporary_file (rest w)) as [[tmp_path|e] r]; simpl; [|done].
  destruct (run_script _ _) as [out w']. simpl.
  destruct out; simpl; [|done|done].
  match goal with
  | |- context [analyze _ _ _ ?a ?b ?c ?d] =>
      pose proof (analyze_argv a b c d) as H;
      destruct (analyze time_time load_stats strftime a b c d) as [result w'']
  end.
  simpl in *. done.
Qed.

Lemma analyze_hot_functions (script_path tmp_path : string) (start_time : float)
  (w w' : world) (report : ProfileReport.t) :
  analyze time_time load_stats strftime script_path tmp_path start_time w
  = (Ok report, w') ->
  exists stats r total_time,
    load_stats tmp_path (rest w) = (Ok stats, r)
    /\ ProfileReport.hot_functions report
       = _extract_hot_functions stats total_time default_limit.
Proof.
  unfold analyze. destruct (load_stats _ _) as [[stats|e] r] eqn:E; [|done].
  intros H. inversion H; subst. simpl. by eauto.
Qed.

(** C6. Suppose that [pstats], asked for at most 20 rows sorted by cumulative
    time, prints at most 20 rows whose cumulative-time column is in
    descending order.  Then the hot functions of every report returned by
    [profile] are in descending order of cumulative time and are at most
    20. *)
Theorem profile_hot_functions_sorted :
  (forall tmp_path e stats e',
      load_stats tmp_path e = (Ok stats, e') ->
      (List.length (data_rows (Stats.print_stats stats default_limit)) <= default_limit)%nat
      /\ pairwise cumtime_ge (data_rows (Stats.print_stats stats default_limit)) = true) ->
  forall script_path script_args w report w',
    profile' script_path script_args w = (Ok report, w') ->
    (List.length (ProfileReport.hot_functions report) <= 20)%nat
    /\ descending (ProfileReport.hot_functions report).
Proof.
  intros Hstats script_path script_args w report w'. unfold profile.
  destruct (path_exists script_path (rest w)); simpl; [|done].
  destruct (named_temporary_file (rest w)) as [[tmp_path|e] r]; simpl; [|done].
  destruct (run_script _ _) as [out w1]. simpl.
  destruct out; simpl; [|done|done].
  match goal with
  | |- context [analyze _ _ _ ?a ?b ?c ?d] =>
      destruct (analyze time_time load_stats strftime a b c d) as [result w2] eqn:E
  end.
  intros H. inversion H; subst.
  apply analyze_hot_functions in E as (stats & r' & total_time & Hload & ->).
  destruct (Hstats _ _ _ _ Hload) as [Hlen Hsorted].
  by apply extract_hot_functions_order.
Qed.

End ProfilingProperties.

(** C6, witness: the run of [sample_profile]. *)
Lemma profile_hot_functions_sorted_sample :
  (List.length (ProfileReport.hot_functions sample_report) <= 20)%nat
  /\ descending (ProfileReport.hot_functions sample_report).
Proof.
  apply (profile_hot_functions_sorted (fun _ _ => true) (fun e => (Ok "stats.prof", e))
           (fun e => e) (fun _ => sample_script)
           (fun _ e => (Ok sample_stats, e)) (fun _ => "2026-02-16 12:00:00")
           (fun _ e => e)
           ltac:(intros tmp_path e stats e' H; inversion H; split;
                 [vm_compute; lia | vm_compute; reflexivity])
           "job.py" ["--fast"] sample_world sample_report
           (snd (sample_profile sample_world))).
  vm_compute. reflexivity.
Defined.

(** ** Floats *)

Section FloatFacts.

Lemma Prim2SF_zero : Prim2SF 0 = S754_zero false.
Proof. reflexivity. Qed.

(** A float above zero is a positive finite number or [infinity]. *)
Lemma positive_float (x : float) :
  (0 <? x)%float = true ->
  x = infinity \/ exists m e, Prim2SF x = S754_finite false m e.
Proof.
  rewrite FloatAxioms.ltb_spec, Prim2SF_zero. unfold SFltb.
  destruct (Prim2SF x) as [s|s| |s m e] eqn:E; simpl; try done.
  - destruct s; [done|]. intros _. left.
    apply Prim2SF_inj. by rewrite E.
  - destruct s; [done|]. intros _. right. by eauto.
Qed.

Lemma positive_float_nonzero (x : float) :
  (0 <? x)%float = true -> (x =? 0)%float = false.
Proof.
  intros H. rewrite FloatAxioms.eqb_spec, Prim2SF_zero.
  destruct (positive_float x H) as [-> | (m & e & ->)]; reflexivity.
Qed.

(** A finite float minus itself is zero. *)
Lemma sub_diag_finite (x : float) (m : positive) (e : Z) :
  Prim2SF x = S754_finite false m e -> (x - x)%float = 0%float.
Proof.
  intros E. apply Prim2SF_inj. rewrite sub_spec, E, Prim2SF_zero.
  unfold SF64sub, SFsub. cbn [cond_Zopp]. by rewrite Z.sub_diag.
Qed.

Lemma div_zero_finite (x : float) (m : positive) (e : Z) :
  Prim2SF x = S754_finite false m e -> (0 / x)%float = 0%float.
Proof.
  intros E. apply Prim2SF_inj. by rewrite div_spec, E, Prim2SF_zero.
Qed.

(** The relative change of a positive float other than [infinity] with
    respect to itself is zero. *)
Lemma self_change_float (x : float) :
  (0 <? x)%float = true -> x <> infinity ->
  ((x - x) / x * 100)%float = 0%float.
Proof.
  intros H Hinf. destruct (positive_float x H) as [-> | (m & e & E)]; [done|].
  by rewrite (sub_diag_finite x m e E), (div_zero_finite x m e E).
Qed.

End FloatFacts.

(** ** The comparator *)

Section Comparator.

Context {text : Type}.
Variable json_load : text -> option json.
Variable load_failure : text -> load_error.

(** [compare_reports] on two files that exist. *)
Lemma compare_reports_present (fs : gmap string text) (baseline_path current_path : string)
  (baseline_text current_text : text) :
  fs !! baseline_path = Some baseline_text ->
  fs !! current_path = Some current_text ->
  compare_reports json_load load_failure fs baseline_path current_path =
    baseline ← or_raise (load_exception (load_failure baseline_text))
                 (json_load baseline_text);
    current ← or_raise (load_exception (load_failure current_text))
                (json_load current_text);
    baseline_time ← py_getitem baseline "total_time";
    current_time ← py_getitem current "total_time";
    time_change ← percent_change baseline_time current_time;
    baseline_calls ← py_getitem baseline "total_calls";
    current_calls ← py_getitem current "total_calls";
    calls_change ← percent_change baseline_calls current_calls;
    baseline_bottlenecks ← bottleneck_set baseline;
    current_bottlenecks ← bottleneck_set current;
    Ok (Comparison.mk baseline_time current_time time_change
          baseline_calls current_calls calls_change
          (current_bottlenecks ∖ baseline_bottlenecks)
          (baseline_bottlenecks ∖ current_bottlenecks)
          ((10 <? time_change)%float || (20 <? calls_change)%float)).
Proof. intros Hb Hc. unfold compare_reports. by rewrite Hb, Hc. Qed.

(** *** The relative change *)

Lemma percent_change_float (baseline current : float) :
  percent_change (JFloat baseline) (JFloat current)
  = Ok (if (0 <? baseline)%float then ((current - baseline) / baseline * 100)%float
        else 0%float).
Proof.
  unfold percent_change. simpl.
  destruct (0 <? baseline)%float eqn:E; [|done].
  simpl. by rewrite (positive_float_nonzero _ E).
Qed.

Lemma percent_change_int (baseline current : Z) :
  percent_change (JInt baseline) (JInt current)
  = if 0 <? baseline then
      q ← or_raise OverflowError (int_truediv (current - baseline) baseline);
      Ok (q * 100)%float
    else Ok 0%float.
Proof.
  unfold percent_change. simpl.
  destruct (0 <? baseline) eqn:E; [|done].
  simpl. by replace (baseline =? 0) with false by lia.
Qed.

(** A non-positive or undefined baseline gives 0.0 without looking at the
    current value. *)
Lemma percent_change_guard (baseline current : json) :
  py_gt_zero baseline = Ok false -> percent_change baseline current = Ok 0%float.
Proof. unfold percent_change. by intros ->. Qed.

(** A number other than [infinity] has no change relative to itself. *)
Lemma percent_change_self (v : json) :
  is_Some (num_of_json v) -> v <> JFloat infinity ->
  percent_change v v = Ok 0%float.
Proof.
  intros [n Hn] Hinf. unfold percent_change, py_gt_zero, py_sub, py_truediv.
  rewrite Hn. destruct n as [z|f]; simpl.
  - destruct (0 <? z) eqn:E; [|done]. simpl.
    replace (z =? 0) with false by lia. rewrite Z.sub_diag.
    unfold int_truediv. simpl. by replace (z <? 0) with false by lia.
  - destruct (0 <? f)%float eqn:E; [|done]. simpl.
    rewrite (positive_float_nonzero _ E). simpl. f_equal.
    apply self_change_float; [done|].
    intros ->. destruct v as [|b|z|f'| | |]; try done; simpl in Hn.
    by inversion Hn; subst.
Qed.

(** The relative change never raises for a division by zero: its failures
    are type errors and overflows. *)
Lemma percent_change_raises (baseline current : json) (e : pyerr) :
  percent_change baseline current = Raise e -> e = TypeError \/ e = OverflowError.
Proof.
  unfold percent_change, py_gt_zero, py_sub, py_truediv.
  destruct (num_of_json baseline) as [[b|b]|]; simpl;
    [| |intros H; inversion H; by left].
  - destruct (0 <? b) eqn:E; [|done].
    replace (b =? 0) with false by lia.
    destruct (num_of_json current) as [[c|c]|]; simpl;
      [| |intros H; inversion H; by left].
    + destruct (int_truediv (c - b) b); simpl; [done|].
      intros H; inversion H; by right.
    + destruct (int_to_float b); simpl; [|intros H; inversion H; by right].
      destruct (int_to_float b); simpl; [done|].
      intros H; inversion H; by right.
  - destruct (0 <? b)%float eqn:E; [|done].
    rewrite (positive_float_nonzero _ E).
    destruct (num_of_json current) as [[c|c]|]; simpl;
      [| |intros H; inversion H; by left]; [|done].
    destruct (int_to_float c); simpl; [done|].
    intros H; inversion H; by right.
Qed.

Lemma percent_change_numbers (baseline current : json) :
  is_number baseline = true -> is_number current = true ->
  (exists q, percent_change baseline current = Ok q)
  \/ percent_change baseline current = Raise OverflowError.
Proof.
  intros Hb Hc.
  destruct (percent_change baseline current) as [q|e] eqn:E; [by eauto|].
  destruct (percent_change_raises _ _ _ E) as [-> | ->]; [|by right].
  exfalso. revert E. unfold percent_change, py_gt_zero, py_sub, py_truediv.
  destruct baseline as [| |b|b| | |]; try done;
    destruct current as [| |c|c| | |]; try done; simpl.
  - destruct (0 <? b); simpl; [|done]. destruct (b =? 0); [done|].
    by destruct (int_truediv _ _).
  - destruct (0 <? b); simpl; [|done].
    destruct (int_to_float b); simpl; [|done]. by destruct (b =? 0).
  - destruct (0 <? b)%float; simpl; [|done].
    destruct (int_to_float c); simpl; [|done]. by destruct (b =? 0)%float.
  - destruct (0 <? b)%float; simpl; [|done]. by destruct (b =? 0)%float.
Qed.

(** *** The bottleneck sets *)

Lemma bottleneck_set_raises (m : gmap string json) (e : pyerr) :
  bottleneck_set (JObj m) = Raise e -> e = TypeError.
Proof.
  unfold bottleneck_set, py_get_or_empty. simpl.
  unfold py_set. destruct (default _ _); simpl; try (intros H; by inversion H).
  destruct (mapM key_of_json l); simpl; intros H; by inversion H.
Qed.

Lemma mapM_key_strings (l : list json) :
  forallb is_string l = true -> is_Some (mapM key_of_json l).
Proof.
  induction l as [|v l IH]; simpl; [by eauto|].
  intros H. apply andb_true_iff in H as [Hv Hl].
  destruct (IH Hl) as [ks Hks]. destruct v; try done.
  simpl. rewrite Hks. simpl. by eauto.
Qed.

Lemma bottleneck_set_strings (m : gmap string json) :
  has_field m "bottlenecks" (is_array_of is_string) = true ->
  exists s, bottleneck_set (JObj m) = Ok s.
Proof.
  unfold has_field, bottleneck_set, py_get_or_empty. simpl.
  destruct (m !! "bottlenecks") as [v|]; [|done]. simpl.
  destruct v; try done. simpl. intros H.
  destruct (mapM_key_strings _ H) as [ks ->]. simpl. by eauto.
Qed.

(** *** Failures *)

Lemma bind_raises {A B : Type} (P : pyerr -> Prop) (m : exc A) (f : A -> exc B) :
  (forall e, m = Raise e -> P e) ->
  (forall a, m = Ok a -> forall e, f a = Raise e -> P e) ->
  forall e, m ≫= f = Raise e -> P e.
Proof.
  intros Hm Hf e. destruct m as [a|e']; simpl; [by apply Hf|].
  intros H. inversion H; subst. by apply Hm.
Qed.

Lemma py_getitem_raises (d : json) (key : string) (e : pyerr) :
  py_getitem d key = Raise e -> field_error e.
Proof.
  unfold field_error. destruct d; simpl; intros H; try (inversion H; by eauto).
  destruct (m !! key); simpl in H; inversion H. by eauto.
Qed.

(** Only a dictionary can be subscripted by a key. *)
Lemma py_getitem_dict (d : json) (key : string) (v : json) :
  py_getitem d key = Ok v -> exists m, d = JObj m.
Proof. destruct d; simpl; try done. by eauto. Qed.

Lemma or_raise_raises {A : Type} (e0 e : pyerr) (o : option A) :
  or_raise e0 o = Raise e -> e = e0 /\ o = None.
Proof. destruct o; simpl; intros H; by inversion H. Qed.

(** The exception of a file that does not load is none of those raised
    where a field is used, and not the error of a missing file. *)
Lemma load_exception_not_field (failure : load_error) :
  ~ field_error (load_exception failure).
Proof. by intros [[key H] | [H | H]]; destruct failure. Qed.

Lemma load_exception_not_missing (failure : load_error) (msg : string) :
  load_exception failure <> FileNotFoundError msg.
Proof. by destruct failure. Qed.

(** Two files that load: every failure arises where a field is used.  In
    particular no division by zero occurs. *)
Lemma compare_reports_loaded_raises (fs : gmap string text)
  (baseline_path current_path : string) (baseline_text current_text : text)
  (baseline current : json) (e : pyerr) :
  fs !! baseline_path = Some baseline_text ->
  fs !! current_path = Some current_text ->
  json_load baseline_text = Some baseline ->
  json_load current_text = Some current ->
  compare_reports json_load load_failure fs baseline_path current_path = Raise e ->
  field_error e.
Proof.
  intros Hb Hc Hlb Hlc.
  rewrite (compare_reports_present _ _ _ _ _ Hb Hc), Hlb, Hlc. simpl. revert e.
  assert (Hp : forall b c e, percent_change b c = Raise e -> field_error e).
  { intros b c e H. unfold field_error.
    destruct (percent_change_raises _ _ _ H) as [-> | ->]; by eauto. }
  assert (Hs : forall m e, bottleneck_set (JObj m) = Raise e -> field_error e).
  { intros m e H. apply bottleneck_set_raises in H as ->.
    unfold field_error. by eauto. }
  apply bind_raises; [by apply py_getitem_raises|]. intros baseline_time Hbt.
  apply bind_raises; [by apply py_getitem_raises|]. intros current_time Hct.
  apply py_getitem_dict in Hbt as [bm ->]. apply py_getitem_dict in Hct as [cm ->].
  apply bind_raises; [by apply Hp|]. intros time_change _.
  apply bind_raises; [by apply py_getitem_raises|]. intros baseline_calls _.
  apply bind_raises; [by apply py_getitem_raises|]. intros current_calls _.
  apply bind_raises; [by apply Hp|]. intros calls_change _.
  apply bind_raises; [by apply Hs|]. intros baseline_bottlenecks _.
  apply bind_raises; [by apply Hs|]. intros current_bottlenecks _.
  done.
Qed.

(** A file that does not load: the comparison raises what loading it
    raised, the baseline being loaded first. *)
Lemma compare_reports_not_loaded (fs : gmap string text)
  (baseline_path current_path : string) (baseline_text current_text : text) :
  fs !! baseline_path = Some baseline_text ->
  fs !! current_path = Some current_text ->
  (json_load baseline_text = None ->
   compare_reports json_load load_failure fs baseline_path current_path
   = Raise (load_exception (load_failure baseline_text)))
  /\ (is_Some (json_load baseline_text) -> json_load current_text = None ->
      compare_reports json_load load_failure fs baseline_path current_path
      = Raise (load_exception (load_failure current_text))).
Proof.
  intros Hb Hc. rewrite (compare_reports_present _ _ _ _ _ Hb Hc). split.
  - by intros ->.
  - by intros [baseline ->] ->.
Qed.

(** Two files that exist never give the error of a missing file. *)
Lemma compare_reports_present_raises (fs : gmap string text)
  (baseline_path current_path : string) (baseline_text current_text : text) (e : pyerr) :
  fs !! baseline_path = Some baseline_text ->
  fs !! current_path = Some current_text ->
  compare_reports json_load load_failure fs baseline_path current_path = Raise e ->
  comparison_error e.
Proof.
  intros Hb Hc H.
  destruct (compare_reports_not_loaded _ _ _ _ _ Hb Hc) as [H1 H2].
  destruct (json_load baseline_text) as [baseline|] eqn:Elb;
    [|rewrite H1 in H by done; inversion H; left; by eauto].
  destruct (json_load current_text) as [current|] eqn:Elc;
    [|rewrite (H2 ltac:(by eexists) eq_refl) in H; inversion H; left; by eauto].
  right. exact (compare_reports_loaded_raises _ _ _ _ _ _ _ _ Hb Hc Elb Elc H).
Qed.

(** What the comparator reads of a conforming report. *)
Lemma conforms_fields (d : json) :
  conforms d = true ->
  exists m time calls,
    d = JObj m /\ m !! "total_time" = Some time /\ is_number time = true
    /\ m !! "total_calls" = Some calls /\ is_number calls = true
    /\ exists s, bottleneck_set d = Ok s.
Proof.
  destruct d as [| | | | | |m]; try done. simpl. intros H.
  repeat (apply andb_true_iff in H as [H ?]).
  assert (Hset := bottleneck_set_strings m ltac:(done)).
  unfold has_field in *.
  destruct (m !! "total_time") as [time|] eqn:Et; [|done].
  destruct (m !! "total_calls") as [calls|] eqn:Ec; [|done].
  exists m, time, calls. repeat split; try done.
  by destruct calls.
Qed.

(** C9 (as amended). [compare_reports] fails with the error of a missing
    report exactly when one of the two files is absent.  When both exist, it
    fails with the exception of [open] or [json.load] exactly when one of
    them does not load, and that exception is the one raised for the first
    such file, the baseline being loaded first.  The schema of a report is
    never checked: when both files load, every failure is a [KeyError], a
    [TypeError] or an [OverflowError], raised where a field is used, and two
    documents that conform to the schema fail only by [OverflowError]. *)
Theorem compare_reports_failures (fs : gmap string text)
  (baseline_path current_path : string) :
  ((exists msg, compare_reports json_load load_failure fs baseline_path current_path
               = Raise (FileNotFoundError msg))
   <-> fs !! baseline_path = None \/ fs !! current_path = None)
  /\ (forall baseline_text current_text,
        fs !! baseline_path = Some baseline_text ->
        fs !! current_path = Some current_text ->
        ((exists failure,
             compare_reports json_load load_failure fs baseline_path current_path
             = Raise (load_exception failure))
         <-> json_load baseline_text = None \/ json_load current_text = None)
        /\ (json_load baseline_text = None ->
            compare_reports json_load load_failure fs baseline_path current_path
            = Raise (load_exception (load_failure baseline_text)))
        /\ (is_Some (json_load baseline_text) -> json_load current_text = None ->
            compare_reports json_load load_failure fs baseline_path current_path
            = Raise (load_exception (load_failure current_text)))
        /\ (forall baseline current,
              json_load baseline_text = Some baseline ->
              json_load current_text = Some current ->
              (forall e,
                  compare_reports json_load load_failure fs baseline_path current_path
                  = Raise e ->
                  field_error e)
              /\ (conforms baseline = true -> conforms current = true ->
                  (exists r, compare_reports json_load load_failure fs
                               baseline_path current_path = Ok r)
                  \/ compare_reports json_load load_failure fs baseline_path current_path
                     = Raise OverflowError))).
Proof.
  split.
  - split.
    + intros [msg H].
      destruct (fs !! baseline_path) as [bt|] eqn:Eb; [|by left].
      destruct (fs !! current_path) as [ct|] eqn:Ec; [|by right].
      apply (compare_reports_present_raises _ _ _ _ _ _ Eb Ec) in H.
      destruct H as [[failure H] | [[key H] | [H | H]]]; try done.
      symmetry in H. by apply load_exception_not_missing in H.
    + unfold compare_reports. intros [-> | Hc]; [by eauto|].
      rewrite Hc. destruct (fs !! baseline_path); by eauto.
  - intros bt ct Hb Hc.
    destruct (compare_reports_not_loaded _ _ _ _ _ Hb Hc) as [H1 H2].
    split; [|split; [done|split; [done|]]].
    + split.
      * intros [failure H].
        destruct (json_load bt) as [b|] eqn:Elb; [|by left].
        destruct (json_load ct) as [c|] eqn:Elc; [|by right].
        apply (compare_reports_loaded_raises _ _ _ _ _ _ _ _ Hb Hc Elb Elc) in H.
        by apply load_exception_not_field in H.
      * intros [Hn | Hn]; [by eauto|].
        destruct (json_load bt) as [b|] eqn:Elb; [|by eauto].
        rewrite (H2 ltac:(by eexists) Hn). by eauto.
    + intros baseline current Hlb Hlc. split.
      * intros e. by apply compare_reports_loaded_raises with bt ct baseline current.
      * intros Hcb Hcc.
        rewrite (compare_reports_present _ _ _ _ _ Hb Hc), Hlb, Hlc. simpl.
        apply conforms_fields in Hcb
          as (bm & btime & bcalls & -> & Hbt & Hbtn & Hbc & Hbcn & bs & Hbs).
        apply conforms_fields in Hcc
          as (cm & ctime & ccalls & -> & Hct & Hctn & Hcc & Hccn & cs & Hcs).
        rewrite Hbs, Hcs. simpl. rewrite Hbt, Hct, Hbc, Hcc. simpl.
        destruct (percent_change_numbers btime ctime Hbtn Hctn) as [[q ->] | ->];
          simpl; [|by right].
        destruct (percent_change_numbers bcalls ccalls Hbcn Hccn) as [[q' ->] | ->];
          simpl; [by eauto | by right].
Qed.

End Comparator.

(** C9, counterexample. Both files exist; the current one is JSON but no
    report (its time is a string, its call count null, its bottlenecks a
    string), and the comparison succeeds. *)
Lemma compare_reports_accepts_malformed :
  is_Some (sample_files !! "idle.json")
  /\ sample_files !! "malformed.json" = Some (Some malformed_doc)
  /\ conforms malformed_doc = false
  /\ compare_reports doc_load doc_failure sample_files "idle.json" "malformed.json"
     = Ok (Comparison.mk (JFloat 0) (JStr "fast") 0 (JInt 0) JNull 0
             {[ KStr "n"; KStr "o"; KStr "e" ]} ∅ false).
Proof.
  split; [by vm_compute; eauto|]. split; [by vm_compute|]. split; [by vm_compute|].
  by vm_compute.
Qed.

(** ** Changes between two reports *)

Section Changes.

Context {text : Type}.
Variable json_load : text -> option json.
Variable load_failure : text -> load_error.

(** On two numbers the expression of the code is the change of the claim,
    and its only failure is an overflow. *)
Lemma percent_change_relative (baseline current : json) :
  is_number baseline = true -> is_number current = true ->
  percent_change baseline current
  = or_raise OverflowError (relative_change baseline current).
Proof.
  destruct baseline as [| |b|b| | |]; try done;
    destruct current as [| |c|c| | |]; try done; intros _ _.
  - rewrite percent_change_int. simpl.
    destruct (0 <? b); [|done]. by destruct (int_truediv (c - b) b).
  - unfold percent_change, py_gt_zero, py_sub, py_truediv. simpl.
    destruct (0 <? b) eqn:E; [|done]. simpl.
    destruct (int_to_float b); simpl; [|done].
    by replace (b =? 0) with false by lia.
  - unfold percent_change, py_gt_zero, py_sub, py_truediv. simpl.
    destruct (0 <? b)%float eqn:E; [|done]. simpl.
    destruct (int_to_float c); simpl; [|done].
    by rewrite (positive_float_nonzero _ E).
  - by rewrite percent_change_float.
Qed.

(** C2 (as amended). For two reports that load, whose total times and total
    calls are numbers (integers or floats), [compare_reports] returns
    [time_change_percent = (current - baseline) / baseline * 100] when the
    baseline time is above zero, and 0.0 whenever it is not (zero, negative
    or not a number), without an error; [calls_change_percent] is defined in
    the same way on the total calls; and [regression_detected] is true
    exactly when the first change is above 10.0 or the second above 20.0.
    The arithmetic is that of the language ([relative_change]), and the one
    failure is [OverflowError], raised instead of a result when an integer
    or a quotient of integers is beyond the floats. *)
Theorem compare_reports_changes (fs : gmap string text)
  (baseline_path current_path : string) (baseline_text current_text : text)
  (baseline current : gmap string json)
  (baseline_time current_time baseline_calls current_calls : json)
  (baseline_bottlenecks current_bottlenecks : gset hkey) :
  fs !! baseline_path = Some baseline_text ->
  fs !! current_path = Some current_text ->
  json_load baseline_text = Some (JObj baseline) ->
  json_load current_text = Some (JObj current) ->
  baseline !! "total_time" = Some baseline_time ->
  current !! "total_time" = Some current_time ->
  baseline !! "total_calls" = Some baseline_calls ->
  current !! "total_calls" = Some current_calls ->
  is_number baseline_time = true -> is_number current_time = true ->
  is_number baseline_calls = true -> is_number current_calls = true ->
  bottleneck_set (JObj baseline) = Ok baseline_bottlenecks ->
  bottleneck_set (JObj current) = Ok current_bottlenecks ->
  compare_reports json_load load_failure fs baseline_path current_path
  = (time_change ← or_raise OverflowError (relative_change baseline_time current_time);
     calls_change ← or_raise OverflowError (relative_change baseline_calls current_calls);
     Ok (Comparison.mk baseline_time current_time time_change
           baseline_calls current_calls calls_change
           (current_bottlenecks ∖ baseline_bottlenecks)
           (baseline_bottlenecks ∖ current_bottlenecks)
           ((10 <? time_change)%float || (20 <? calls_change)%float))).
Proof.
  intros Hb Hc Hlb Hlc Hbt Hct Hbc Hcc Hnbt Hnct Hnbc Hncc Hbs Hcs.
  rewrite (compare_reports_present _ _ _ _ _ _ _ Hb Hc), Hlb, Hlc. simpl.
  rewrite Hbs, Hcs, Hbt, Hct, Hbc, Hcc. simpl.
  by rewrite !percent_change_relative by done.
Qed.

(** C8 (as amended). A report whose total time and total calls are numbers
    other than [infinity], compared with itself, shows no change of time, no
    change of calls, no new and no fixed bottleneck, and no regression. *)
Theorem compare_reports_self (fs : gmap string text) (path : string)
  (content : text) (report : gmap string json) (time calls : json) :
  fs !! path = Some content ->
  json_load content = Some (JObj report) ->
  report !! "total_time" = Some time ->
  report !! "total_calls" = Some calls ->
  is_Some (num_of_json time) -> time <> JFloat infinity ->
  is_Some (num_of_json calls) -> calls <> JFloat infinity ->
  (exists bottlenecks, bottleneck_set (JObj report) = Ok bottlenecks) ->
  compare_reports json_load load_failure fs path path
  = Ok (Comparison.mk time time 0 calls calls 0 ∅ ∅ false).
Proof.
  intros Hf Hl Ht Hc Htn Hti Hcn Hci [bottlenecks Hs].
  rewrite (compare_reports_present _ _ _ _ _ _ _ Hf Hf), Hl. simpl.
  rewrite Hs, Ht, Hc. simpl.
  rewrite !percent_change_self by done. simpl.
  by rewrite difference_diag_L.
Qed.

End Changes.

(** C2, witness: the scenario of the specification, from 1.0 s and 100 calls
    to 2.5 s and 150 calls. *)
Lemma compare_reports_changes_sample :
  compare_reports doc_load doc_failure sample_files "fast.json" "slow.json"
  = Ok (Comparison.mk (JFloat 1) (JFloat 0x1.4p+1) 150 (JInt 100) (JInt 150) 50
          ∅ ∅ true).
Proof.
  etrans;
    [apply (compare_reports_changes doc_load doc_failure sample_files
              "fast.json" "slow.json"
              (Some (simple_doc (JFloat 1) (JInt 100)))
              (Some (simple_doc (JFloat 0x1.4p+1) (JInt 150)))
              (simple_fields (JFloat 1) (JInt 100))
              (simple_fields (JFloat 0x1.4p+1) (JInt 150))
              (JFloat 1) (JFloat 0x1.4p+1) (JInt 100) (JInt 150) ∅ ∅)|];
    vm_compute; reflexivity.
Defined.

(** C2, counterexample. A baseline time of -1.0 s and a current time of
    1.0 s give a change of 0.0, where the formula of the claim gives
    -200.0. *)
Lemma compare_reports_negative_baseline :
  Comparison.time_change_percent
    <$> compare_reports doc_load doc_failure sample_files "negative.json" "one.json"
  = Ok 0%float
  /\ ((1 - -1) / -1 * 100)%float = (-200)%float
  /\ (0 =? -200)%float = false.
Proof. split; [by vm_compute|]. split; by vm_compute. Qed.

(** An overflow: from 1 call to [10 ^ 400] calls, both of which [json.load]
    reads, the quotient of the two integers is beyond the floats. *)
Lemma compare_reports_overflow :
  compare_reports doc_load doc_failure
    (<["few.json" := Some (simple_doc (JFloat 1) (JInt 1))]>
     (<["many.json" := Some (simple_doc (JFloat 1) (JInt (10 ^ 400)))]> ∅))
    "few.json" "many.json"
  = Raise OverflowError.
Proof. by vm_compute. Qed.

(** C8, witness: the report of the sample run. *)
Lemma compare_reports_self_sample :
  compare_reports doc_load doc_failure sample_files "sample.json" "sample.json"
  = Ok (Comparison.mk (JFloat 0x1.47ae147ae147bp-7) (JFloat 0x1.47ae147ae147bp-7) 0
          (JInt 20068) (JInt 20068) 0 ∅ ∅ false).
Proof.
  apply (compare_reports_self doc_load doc_failure sample_files "sample.json"
           (Some (report_dict sample_report)) (report_fields sample_report)
           (JFloat 0x1.47ae147ae147bp-7) (JInt 20068)).
  - vm_compute. reflexivity.
  - reflexivity.
  - vm_compute. reflexivity.
  - vm_compute. reflexivity.
  - by eexists.
  - discriminate.
  - by eexists.
  - discriminate.
  - apply bottleneck_set_strings. vm_compute. reflexivity.
Defined.

(** C8, counterexample. A report whose total time is [Infinity], a number
    that [json.load] accepts, compared with itself has a change of time that
    is not a number, hence not zero. *)
Lemma compare_reports_self_infinite :
  Comparison.time_change_percent
    <$> compare_reports doc_load doc_failure sample_files "endless.json" "endless.json"
  = Ok nan
  /\ (nan =? 0)%float = false.
Proof. split; by vm_compute. Qed.

(** ** Persisting a report *)

Section Persistence.

Lemma function_of_asdict (f : FunctionStats.t) : function_of_dict (asdict f) = Some f.
Proof. by destruct f. Qed.

Lemma mapM_fmap_inverse {A B : Type} (f : B -> option A) (g : A -> B) (l : list A) :
  (forall x, f (g x) = Some x) -> mapM f (g <$> l) = Some l.
Proof.
  intros H. induction l as [|x l IH]; [done|].
  cbn. rewrite H. cbn. rewrite IH. done.
Qed.

Lemma omap_int_of_json (m : gmap string Z) : omap int_of_json (JInt <$> m) = m.
Proof.
  apply map_eq. intros k. rewrite lookup_omap, lookup_fmap.
  by destruct (m !! k).
Qed.

(** Reading the dictionary of a report gives the report back, field for
    field. *)
Lemma report_of_report_dict (report : ProfileReport.t) :
  report_of_dict (report_dict report) = Some report.
Proof.
  destruct report as [sp tt tc hf bn ct rc ts].
  unfold report_of_dict, report_dict, report_fields. cbn [ProfileReport.script_path
    ProfileReport.total_time ProfileReport.total_calls ProfileReport.hot_functions
    ProfileReport.bottlenecks ProfileReport.call_tree ProfileReport.recommendations
    ProfileReport.timestamp].
  repeat (rewrite lookup_insert_eq || (rewrite lookup_insert_ne by done)).
  cbn [mbind option_bind str_of_json float_of_json int_of_json list_of_json dict_of_json].
  rewrite (mapM_fmap_inverse function_of_dict asdict) by apply function_of_asdict.
  rewrite !(mapM_fmap_inverse str_of_json JStr) by done.
  cbn [mbind option_bind]. by rewrite omap_int_of_json.
Qed.

Context {text : Type}.
Variable json_dump : json -> text.
Variable json_load : text -> option json.
Variable stem : string -> string.
Variable joinpath : string -> string -> string.

(** C7. Provided that [json.load] reads back what [json.dump] wrote, the
    file written by [save_report] in JSON format loads as a dictionary from
    which the original report is read back field for field, and whose
    [hot_functions] holds every record of the report, not only the first
    ten. *)
Theorem save_report_roundtrip :
  (forall v, json_load (json_dump v) = Some v) ->
  forall (output_dir stamp : string) (report : ProfileReport.t) (fs : gmap string text),
    let saved := save_report_json json_dump stem joinpath output_dir stamp report fs in
    exists loaded,
      (snd saved !! fst saved ≫= json_load) = Some (JObj loaded)
      /\ report_of_dict (JObj loaded) = Some report
      /\ loaded !! "hot_functions"
         = Some (JArr (asdict <$> ProfileReport.hot_functions report))
      /\ (forall functions,
            loaded !! "hot_functions" = Some (JArr functions) ->
            List.length functions = List.length (ProfileReport.hot_functions report)).
Proof.
  intros Hcodec output_dir stamp report fs saved.
  exists (report_fields report).
  assert (Hhot : report_fields report !! "hot_functions"
                 = Some (JArr (asdict <$> ProfileReport.hot_functions report))).
  { unfold report_fields.
    by repeat (rewrite lookup_insert_eq || (rewrite lookup_insert_ne by done)). }
  split.
  { unfold saved, save_report_json. cbn [fst snd].
    rewrite lookup_insert_eq. cbn [mbind option_bind]. by rewrite Hcodec. }
  split; [apply report_of_report_dict|].
  split; [done|].
  intros functions Hf. rewrite Hhot in Hf. inversion Hf.
  by rewrite length_fmap.
Qed.

End Persistence.

(** C7, witness: the report of the sample run, written by a codec that keeps
    the value. *)
Lemma save_report_roundtrip_sample :
  let saved :=
    save_report_json doc_dump (fun p => p) (fun d n => d ++ "/" ++ n)
      "profilescope_reports" "20260216_120000" sample_report ∅ in
  exists loaded,
    (snd saved !! fst saved ≫= doc_load) = Some (JObj loaded)
    /\ report_of_dict (JObj loaded) = Some sample_report
    /\ loaded !! "hot_functions"
       = Some (JArr (asdict <$> ProfileReport.hot_functions sample_report))
    /\ (forall functions,
          loaded !! "hot_functions" = Some (JArr functions) ->
          List.length functions = List.length (ProfileReport.hot_functions sample_report)).
Proof.
  apply (save_report_roundtrip doc_dump doc_load (fun p => p)
           (fun d n => d ++ "/" ++ n) ltac:(reflexivity)
           "profilescope_reports" "20260216_120000" sample_report ∅).
Defined.


(** * Further properties *)

(** ** The analyzer: sizes and the records it reads *)

Section AnalyzerBounds.

Import FunctionStats.

Lemma length_filter_le {A : Type} (p : A -> bool) (l : list A) :
  (List.length (List.filter p l) <= List.length l)%nat.
Proof.
  induction l as [|x l IH]; simpl; [done|].
  destruct (p x); simpl; lia.
Qed.

Lemma length_matching {A : Type} (cond : A -> bool) (msg : A -> string)
  (n : nat) (xs : list A) :
  (List.length (msg <$> List.filter cond (take n xs)) <= n)%nat.
Proof.
  rewrite length_fmap. etrans; [apply length_filter_le|].
  rewrite length_take. lia.
Qed.

(** X1. [_generate_recommendations] never returns an empty list: without
    records, or when no rule fires, it returns one fixed sentence. *)
Theorem generate_recommendations_nonempty (hot_functions : list FunctionStats.t)
  (total_time : float) :
  exists first others,
    _generate_recommendations hot_functions total_time = first :: others.
Proof.
  unfold _generate_recommendations.
  destruct hot_functions as [|f hot]; [by eauto|].
  destruct (append_matching _ _ _ _); by eauto.
Qed.

(** X2. The analyzer reports at most ten bottlenecks, never more than there
    are records, and at most twenty recommendations (five, five and ten from
    the three rules). *)
Theorem analyzer_bounds (hot_functions : list FunctionStats.t) (total_time : float) :
  (List.length (_identify_bottlenecks hot_functions) <= 10)%nat
  /\ (List.length (_identify_bottlenecks hot_functions) <= List.length hot_functions)%nat
  /\ (List.length (_generate_recommendations hot_functions total_time) <= 20)%nat.
Proof.
  split; [|split].
  - unfold _identify_bottlenecks. rewrite append_matching_filter, app_nil_l.
    apply length_matching.
  - unfold _identify_bottlenecks. rewrite append_matching_filter, app_nil_l.
    rewrite length_fmap. etrans; [apply length_filter_le|].
    rewrite length_take. lia.
  - unfold _generate_recommendations.
    destruct hot_functions as [|f hot]; [simpl; lia|].
    rewrite !append_matching_filter, app_nil_l.
    set (hf := f :: hot).
    pose proof (length_matching (fun func => 10000 <? total_calls func)
                  high_calls_message 5 hf) as H1.
    pose proof (length_matching
                  (fun func => (total_time * point_two <? cumulative_time func)%float)
                  hot_path_message 5 hf) as H2.
    pose proof (length_matching (fun func => primitive_calls func <? total_calls func)
                  recursive_message 10 hf) as H3.
    match goal with
    | |- (List.length (match ?l with [] => _ | _ => _ end) <= 20)%nat =>
        assert (List.length l <= 20)%nat as Hl
          by (rewrite !length_app; lia);
        destruct l; [simpl; lia | exact Hl]
    end.
Qed.

(** X3. Bottlenecks and recommendations are determined by the first ten
    records: later records are never read. *)
Theorem analyzer_first_ten (hot_functions : list FunctionStats.t) (total_time : float) :
  _identify_bottlenecks hot_functions = _identify_bottlenecks (take 10 hot_functions)
  /\ _generate_recommendations hot_functions total_time
     = _generate_recommendations (take 10 hot_functions) total_time.
Proof.
  split.
  - unfold _identify_bottlenecks. by rewrite take_take.
  - unfold _generate_recommendations.
    destruct hot_functions as [|f hot]; [done|].
    change (take 10 (f :: hot)) with (f :: take 9 hot) at 1.
    cbv beta iota.
    rewrite <- (firstn_cons 9 f hot) at 1.
    by rewrite !take_take.
Qed.

End AnalyzerBounds.

(** ** The stats parser: what the loop skips and what every record satisfies *)

Section ParserInvariants.

Import FunctionStats.

Lemma table_lines_no_header (l1 l2 : list string) :
  forallb (fun line => negb (is_header line)) l1 = true ->
  table_lines false (l1 ++ l2) = table_lines false l2.
Proof.
  induction l1 as [|line l1 IH]; simpl; [done|].
  intros H. apply andb_true_iff in H as [H1 H2].
  apply negb_true_iff in H1. rewrite H1. by apply IH.
Qed.

Lemma length_table_lines (lines : list string) (parsing_stats : bool) :
  (List.length (table_lines parsing_stats lines) <= List.length lines)%nat.
Proof.
  revert parsing_stats. induction lines as [|line rest IH]; intros b; simpl; [done|].
  destruct (is_header line); [specialize (IH true); lia|].
  destruct b; simpl; [specialize (IH true) | specialize (IH false)]; lia.
Qed.

Lemma table_lines_header (lines : list string) :
  table_lines false lines <> [] ->
  exists line, In line lines /\ is_header line = true.
Proof.
  induction lines as [|line rest IH]; simpl; [done|].
  destruct (is_header line) eqn:E; [by eauto|].
  intros H. destruct (IH H) as (l & Hl & Hh). eauto.
Qed.

(** X4. Lines before the first header line are ignored: a text without a
    header line gives no record, and putting such a text in front of an
    output does not change its records. *)
Theorem parse_output_skips_preamble (preamble output : string) (total_time : float) :
  forallb (fun line => negb (is_header line)) (split_char "010" preamble) = true ->
  parse_output preamble total_time = []
  /\ parse_output (preamble ++ newline ++ output) total_time
     = parse_output output total_time.
Proof.
  intros H. unfold parse_output. rewrite !scan_lines_omap, !app_nil_l. split.
  - rewrite <- (app_nil_r (split_char "010" preamble)).
    by rewrite (table_lines_no_header _ _ H).
  - unfold newline. push_append.
    by rewrite split_char_sep, (table_lines_no_header _ _ H).
Qed.

(** X4, witness: the line that [pstats] prints above the table. *)
Lemma parse_output_skips_preamble_sample :
  parse_output "   3 function calls in 0.010 seconds" 1 = []
  /\ parse_output ("   3 function calls in 0.010 seconds" ++ newline ++ sample_output) 1
     = parse_output sample_output 1.
Proof.
  apply (parse_output_skips_preamble "   3 function calls in 0.010 seconds"
           sample_output 1).
  vm_compute. reflexivity.
Defined.

(** X5. The parser returns fewer records than the output has lines, and
    returns a record only if some line is a header line. *)
Theorem parse_output_needs_header (output : string) (total_time : float) :
  (List.length (parse_output output total_time)
   < List.length (split_char "010" output))%nat
  /\ (parse_output output total_time <> [] ->
      exists line, In line (split_char "010" output) /\ is_header line = true).
Proof.
  unfold parse_output. rewrite scan_lines_omap, app_nil_l. split.
  - eapply Nat.le_lt_trans; [apply length_omap|].
    pose proof (split_char_nonempty "010" output) as Hne.
    destruct (split_char "010" output) as [|line rest]; [done|]. simpl.
    destruct (is_header line).
    + pose proof (length_table_lines rest true). lia.
    + pose proof (length_table_lines rest false). lia.
  - intros H. apply table_lines_header. intros E. by rewrite E in H.
Qed.

Lemma parse_stats_line_percentage (total_time : float) (line : string)
  (r : FunctionStats.t) :
  parse_stats_line total_time line = Some r ->
  percentage r
  = (if (0 <? total_time)%float then (cumulative_time r / total_time * 100)%float
     else 0%float).
Proof.
  unfold parse_stats_line. intros H.
  destruct (split_ws 5 line) as [|f0 [|f1 [|f2 [|f3 [|f4 [|f5 [|]]]]]]]; try done.
  destruct (float_of_field f1); [|done]. simpl in H.
  destruct (if negb (String.eqb f2 "0.000") then float_of_field f2 else Some 0%float);
    [|done]. simpl in H.
  destruct (float_of_field f3); [|done]. simpl in H.
  destruct (if negb (String.eqb f4 "0.000") then float_of_field f4 else Some 0%float);
    [|done]. simpl in H.
  destruct (parse_func_info f5) as [[[fn ln] nm]|]; [|done]. simpl in H.
  destruct (parse_ncalls f0) as [[p t]|]; [|done]. simpl in H.
  by inversion H.
Qed.

Lemma parse_output_Forall (P : FunctionStats.t -> Prop) (output : string)
  (total_time : float) :
  (forall line r, parse_stats_line total_time line = Some r -> P r) ->
  Forall P (parse_output output total_time).
Proof.
  intros H. unfold parse_output. rewrite scan_lines_omap, app_nil_l.
  apply (Forall_omap _ (fun _ => True)); [by eauto|].
  by apply List.Forall_forall.
Qed.

(** Every record's percentage is its cumulative time over the total time,
    times 100, when the total time is positive, and 0 otherwise. *)
Lemma parse_output_percentage (output : string) (total_time : float) :
  Forall (fun r =>
            percentage r
            = (if (0 <? total_time)%float
               then (cumulative_time r / total_time * 100)%float else 0%float))
    (parse_output output total_time).
Proof. apply parse_output_Forall, parse_stats_line_percentage. Qed.

Lemma filter_none {A : Type} (p : A -> bool) (l : list A) :
  Forall (fun x => p x = false) l -> List.filter p l = [].
Proof.
  induction 1 as [|x l Hx Hl IH]; simpl; [done|]. by rewrite Hx.
Qed.

(** X6. When the total time is not positive (zero, negative or not a number)
    no function is a bottleneck, whatever the table says. *)
Theorem zero_time_no_bottleneck (output : string) (total_time : float) :
  (0 <? total_time)%float = false ->
  _identify_bottlenecks (parse_output output total_time) = [].
Proof.
  intros Ht. unfold _identify_bottlenecks.
  rewrite append_matching_filter, app_nil_l.
  rewrite filter_none; [done|].
  apply Forall_take.
  eapply Forall_impl; [apply parse_output_percentage|].
  simpl. intros r ->. by rewrite Ht.
Qed.

(** X6, witness: the sample table with a clock that did not advance. *)
Lemma zero_time_no_bottleneck_sample :
  _identify_bottlenecks (parse_output sample_output 0) = [].
Proof. apply (zero_time_no_bottleneck sample_output 0). reflexivity. Defined.

Lemma dec_val_nonneg (c : ascii) : is_dec c = true -> 0 <= dec_val c.
Proof.
  unfold is_dec, dec_val. intros H. apply andb_true_iff in H as [H _].
  apply Nat.leb_le in H. lia.
Qed.

Lemma digits_tail_nonneg (n : nat) :
  forall l ds r,
    (List.length l <= n)%nat -> digits_tail l = (ds, r) -> Forall (Z.le 0) ds.
Proof.
  induction n as [|n IH]; intros l ds r Hn.
  - destruct l; [|simpl in Hn; lia]. simpl. intros [= <- <-]. constructor.
  - destruct l as [|c l]; cbn [digits_tail]; [intros [= <- <-]; constructor|].
    simpl in Hn.
    destruct (is_dec c) eqn:Hc.
    + destruct (digits_tail l) as [ds' r'] eqn:E. intros [= <- <-].
      constructor; [by apply dec_val_nonneg|]. eapply IH; [|exact E]. lia.
    + destruct (Ascii.eqb c "_"); [|intros [= <- <-]; constructor].
      destruct l as [|d l]; [intros [= <- <-]; constructor|].
      simpl in Hn.
      destruct (is_dec d) eqn:Hd; [|intros [= <- <-]; constructor].
      destruct (digits_tail l) as [ds' r'] eqn:E. intros [= <- <-].
      constructor; [by apply dec_val_nonneg|]. eapply IH; [|exact E]. lia.
Qed.

Lemma digits_value_nonneg (ds : list Z) : Forall (Z.le 0) ds -> 0 <= digits_value ds.
Proof.
  unfold digits_value. intros H.
  assert (forall acc, 0 <= acc ->
                      0 <= fold_left (fun acc d => 10 * acc + d) ds acc) as G.
  { induction H as [|d ds Hd Hds IH]; intros acc Hacc; simpl; [done|].
    apply IH. lia. }
  apply G. lia.
Qed.

(** A string of digits that [int] accepts is read as a natural number. *)
Lemma int_of_field_isdigit (s : string) (n : Z) :
  isdigit s = true -> int_of_field s = Some n -> 0 <= n.
Proof.
  destruct s as [|c s]; [done|]. simpl. intros H.
  apply andb_true_iff in H as [Hc _].
  unfold int_of_field. cbn [list_ascii_of_string read_sign].
  destruct (Ascii.eqb_spec c "-") as [->|_]; [by vm_compute in Hc|].
  destruct (Ascii.eqb_spec c "+") as [->|_]; [by vm_compute in Hc|].
  cbn [digitpart]. destruct (is_dec c) eqn:Hd; [|done].
  destruct (digits_tail (list_ascii_of_string s)) as [ds r] eqn:E.
  destruct r; [|done]. intros [= <-].
  apply digits_value_nonneg. constructor; [by apply dec_val_nonneg|].
  by eapply digits_tail_nonneg.
Qed.

Lemma parse_func_info_line_number (func_info filename name : string) (line_number : Z) :
  parse_func_info func_info = Some (filename, line_number, name) -> 0 <= line_number.
Proof.
  unfold parse_func_info.
  destruct (contains_char ":" func_info && contains_char "(" func_info);
    [|by intros [= _ <- _]].
  destruct (split_char "(" func_info !! 0%nat) as [file_line|]; [|done].
  destruct (split_char "(" func_info !! 1%nat) as [rest|]; [|done]. simpl.
  destruct (contains_char ":" file_line); [|by intros [= _ <- _]].
  destruct (rsplit1 ":" file_line) as [[a b]|]; [|done]. simpl.
  destruct (isdigit b) eqn:Hd; simpl; [|by intros [= _ <- _]].
  destruct (int_of_field b) as [k|] eqn:Hi; simpl; [|done].
  intros [= _ <- _]. by eapply int_of_field_isdigit.
Qed.

(** X7. No record has a negative line number: the number after the last
    colon is read only when it consists of digits, and is 0 otherwise. *)
Theorem parse_output_line_numbers (output : string) (total_time : float) :
  Forall (fun r => 0 <= line_number r) (parse_output output total_time).
Proof.
  apply parse_output_Forall. intros line r Hr.
  apply parse_stats_line_fields in Hr
    as (f0 & f1 & f2 & f3 & f4 & f5 & _ & _ & Hf & _).
  by eapply parse_func_info_line_number.
Qed.

End ParserInvariants.

Section TotalTime.

Import FunctionStats.

Lemma Forall2_omap {A B C : Type} (f : A -> option B) (g : A -> option C)
  (R : B -> C -> Prop) (l : list A) :
  (forall x, match f x, g x with
             | Some a, Some b => R a b
             | None, None => True
             | _, _ => False
             end) ->
  Forall2 R (omap f l) (omap g l).
Proof.
  intros H. induction l as [|x l IH]; cbn [omap list_omap]; [constructor|].
  specialize (H x). destruct (f x), (g x); try done. by constructor.
Qed.

(** X8. The total time decides the percentages and nothing else: parsed
    with two different total times, an output gives the same number of
    records, equal in every other field. *)
Theorem parse_output_total_time (output : string) (t1 t2 : float) :
  Forall2
    (fun a b =>
       name a = name b /\ filename a = filename b /\ line_number a = line_number b
       /\ total_calls a = total_calls b /\ primitive_calls a = primitive_calls b
       /\ total_time a = total_time b /\ cumulative_time a = cumulative_time b
       /\ time_per_call a = time_per_call b
       /\ cumulative_per_call a = cumulative_per_call b)
    (parse_output output t1) (parse_output output t2).
Proof.
  unfold parse_output. rewrite !scan_lines_omap, !app_nil_l.
  apply Forall2_omap. intros line. unfold parse_stats_line.
  destruct (split_ws 5 line) as [|f0 [|f1 [|f2 [|f3 [|f4 [|f5 [|]]]]]]]; try done.
  destruct (float_of_field f1); [|done]. simpl.
  destruct (if negb (String.eqb f2 "0.000") then float_of_field f2 else Some 0%float);
    [|done]. simpl.
  destruct (float_of_field f3); [|done]. simpl.
  destruct (if negb (String.eqb f4 "0.000") then float_of_field f4 else Some 0%float);
    [|done]. simpl.
  destruct (parse_func_info f5) as [[[fn ln] nm]|]; [|done]. simpl.
  destruct (parse_ncalls f0) as [[p t]|]; [|done]. simpl.
  tauto.
Qed.

End TotalTime.

(** ** The renderers *)

Section Renderers.

Lemma length_string_app (a b : string) :
  String.length (a ++ b) = (String.length a + String.length b)%nat.
Proof. induction a as [|c a IH]; simpl; [done|]. by rewrite IH. Qed.

Lemma length_repeat_char (c : ascii) (n : nat) : String.length (repeat_char c n) = n.
Proof. unfold repeat_char. induction n as [|n IH]; simpl; [done|]. by rewrite IH. Qed.

Lemma substring_whole (s : string) (n : nat) :
  (String.length s <= n)%nat -> substring 0 n s = s.
Proof.
  revert n. induction s as [|c s IH]; intros [|n]; simpl; try done; try lia.
  intros H. f_equal. apply IH. lia.
Qed.

Lemma length_substring (s : string) (n : nat) :
  (n <= String.length s)%nat -> String.length (substring 0 n s) = n.
Proof.
  revert n. induction s as [|c s IH]; intros [|n]; simpl; try done; try lia.
  intros H. f_equal. apply IH. lia.
Qed.

(** X9. In the terminal table the name column is always 40 characters wide:
    a name is cut to its first 38 characters, which leaves a shorter name
    as it is, and padded with spaces. *)
Theorem terminal_name_column (name : string) :
  short_name name = substring 0 38 name
  /\ String.length (ljust 40 (short_name name)) = 40%nat.
Proof.
  unfold short_name, ljust.
  destruct (38 <? String.length name)%nat eqn:E.
  - apply Nat.ltb_lt in E. split; [done|].
    rewrite length_string_app, length_repeat_char, length_substring; lia.
  - apply Nat.ltb_ge in E. split; [by rewrite substring_whole|].
    rewrite length_string_app, length_repeat_char. lia.
Qed.

(** X10. The [KeyError] of the terminal report.  It is raised only when the
    call tree is asked for and lacks one of its three keys, and it names the
    first key that is missing, in the order [total_functions],
    [primitive_calls], [total_calls].  When the call tree is asked for and
    lacks a key, no text is returned. *)
Theorem format_terminal_report_key_error (report : ProfileReport.t) (show_tree : bool) :
  (forall key,
      format_terminal_report report show_tree = Raise (KeyError key) ->
      show_tree = true
      /\ In key ["total_functions"; "primitive_calls"; "total_calls"]
      /\ ProfileReport.call_tree report !! key = None
      /\ (key = "primitive_calls" ->
          is_Some (ProfileReport.call_tree report !! "total_functions"))
      /\ (key = "total_calls" ->
          is_Some (ProfileReport.call_tree report !! "total_functions")
          /\ is_Some (ProfileReport.call_tree report !! "primitive_calls")))
  /\ (show_tree = true ->
      (exists key, In key ["total_functions"; "primitive_calls"; "total_calls"]
                   /\ ProfileReport.call_tree report !! key = None) ->
      forall text, format_terminal_report report show_tree <> Ok text).
Proof.
  unfold format_terminal_report, terminal_lines.
  destruct show_tree; [|split; [done | intros H; done]].
  unfold terminal_call_tree.
  destruct (ProfileReport.call_tree report !! "total_functions") as [a|] eqn:Ea.
  2: { simpl. split; [|done]. intros key [= <-].
       split; [done|]. split; [by left|]. by repeat split. }
  destruct (ProfileReport.call_tree report !! "primitive_calls") as [b|] eqn:Eb.
  2: { simpl. split; [|done]. intros key [= <-].
       split; [done|]. split; [by right; left|]. repeat split; by eauto. }
  destruct (ProfileReport.call_tree report !! "total_calls") as [c|] eqn:Ec.
  2: { simpl. split; [|done]. intros key [= <-].
       split; [done|]. split; [by right; right; left|]. repeat split; by eauto. }
  simpl. split; [done|].
  intros _ (key & Hin & Hnone).
  destruct Hin as [<- | [<- | [<- | []]]]; congruence.
Qed.

(** X11. The three renderings show at most ten functions: cutting the list
    of hot functions of a report to its first ten leaves the terminal, the
    Markdown and the HTML text unchanged. *)
Theorem renderers_first_ten (report : ProfileReport.t) (file_name : string)
  (show_tree : bool) :
  let shown :=
    ProfileReport.mk (ProfileReport.script_path report)
      (ProfileReport.total_time report) (ProfileReport.total_calls report)
      (take 10 (ProfileReport.hot_functions report))
      (ProfileReport.bottlenecks report) (ProfileReport.call_tree report)
      (ProfileReport.recommendations report) (ProfileReport.timestamp report) in
  format_terminal_report shown show_tree = format_terminal_report report show_tree
  /\ markdown_text file_name shown = markdown_text file_name report
  /\ html_text file_name shown = html_text file_name report.
Proof.
  intros shown. subst shown.
  unfold format_terminal_report, terminal_lines, markdown_text, html_text,
    terminal_header, terminal_hot_functions.
  cbn [ProfileReport.script_path ProfileReport.total_time ProfileReport.total_calls
       ProfileReport.hot_functions ProfileReport.bottlenecks ProfileReport.call_tree
       ProfileReport.recommendations ProfileReport.timestamp].
  rewrite !take_take. change (10 `min` 10)%nat with 10%nat.
  split; [|done].
  destruct (ProfileReport.hot_functions report) as [|f hot]; [done|].
  change (take 10 (f :: hot)) with (f :: take 9 hot) at 1.
  reflexivity.
Qed.

End Renderers.

(** ** Saving reports, and comparing what was saved *)

Section SavingProperties.

Context {text : Type}.
Variable json_dump : json -> text.
Variable json_load : text -> option json.
Variable load_failure : text -> load_error.
Variable plain : string -> text.
Variable stem : string -> string.
Variable path_name : string -> string.
Variable joinpath : string -> string -> string.

Abbreviation save_report' := (save_report json_dump plain stem path_name joinpath).

(** X12. [save_report] touches one path at most, the one made of the output
    directory, the stem of the script path, the reading of the clock and the
    extension of the format: every other path keeps what it had.  A format
    other than [json], [markdown] and [html], spelled exactly so, raises
    [ValueError] naming the format and writes nothing.  When a path is
    returned, the format is one of the three, the path is that one and the
    file exists. *)
Theorem save_report_one_file (output_dir stamp : string) (report : ProfileReport.t)
  (format : string) (fs : gmap string text) :
  let saved := save_report' output_dir stamp report format fs in
  let extension :=
    if String.eqb format "json" then ".json"
    else if String.eqb format "markdown" then ".md" else ".html" in
  let target :=
    joinpath output_dir
      (stem (ProfileReport.script_path report) ++ "_" ++ stamp ++ extension) in
  (forall other, other <> target -> snd saved !! other = fs !! other)
  /\ (~ In format ["json"; "markdown"; "html"] ->
      saved = (Raise (ValueError ("Unsupported format: " ++ format)), fs))
  /\ (forall filepath,
        fst saved = Ok filepath ->
        In format ["json"; "markdown"; "html"]
        /\ filepath = target
        /\ is_Some (snd saved !! filepath)).
Proof.
  unfold save_report, save_report_json.
  destruct (String.eqb_spec format "json") as [->|H1].
  { cbn [fst snd String.eqb Ascii.eqb Bool.eqb]. split; [|split].
    - intros other Ho. by rewrite lookup_insert_ne.
    - intros Hn. exfalso. apply Hn. by left.
    - intros filepath [= <-]. rewrite lookup_insert_eq. split; [by left|]. by eauto. }
  destruct (String.eqb_spec format "markdown") as [->|H2].
  { cbn [fst snd String.eqb Ascii.eqb Bool.eqb]. split; [|split].
    - intros other Ho. by rewrite lookup_insert_ne.
    - intros Hn. exfalso. apply Hn. by right; left.
    - intros filepath [= <-]. rewrite lookup_insert_eq.
      split; [by right; left|]. by eauto. }
  destruct (String.eqb_spec format "html") as [->|H3].
  { cbn [fst snd String.eqb Ascii.eqb Bool.eqb]. split; [|split].
    - intros other Ho. by rewrite lookup_insert_ne.
    - intros Hn. exfalso. apply Hn. by right; right; left.
    - intros filepath [= <-]. rewrite lookup_insert_eq.
      split; [by right; right; left|]. by eauto. }
  cbn [fst snd]. split; [done|]. split; [done|]. intros filepath H. by inversion H.
Qed.

(** X13. The file name has a resolution of one second: two reports whose
    script paths have the same stem, saved in the same format with the same
    reading of the clock, go to the same path, and the second replaces the
    first. *)
Theorem save_report_replaces (output_dir stamp format : string)
  (first second : ProfileReport.t) (fs : gmap string text) :
  stem (ProfileReport.script_path first) = stem (ProfileReport.script_path second) ->
  let saved := save_report' output_dir stamp first format fs in
  fst (save_report' output_dir stamp second format (snd saved)) = fst saved
  /\ snd (save_report' output_dir stamp second format (snd saved))
     = snd (save_report' output_dir stamp second format fs).
Proof.
  intros Hs. unfold save_report, save_report_json. rewrite Hs.
  destruct (String.eqb format "json");
    [cbn [fst snd]; by rewrite insert_insert_eq|].
  destruct (String.eqb format "markdown");
    [cbn [fst snd]; by rewrite insert_insert_eq|].
  destruct (String.eqb format "html");
    [cbn [fst snd]; by rewrite insert_insert_eq|].
  done.
Qed.

Lemma exc_bind_ok {A B : Type} (a : A) (f : A -> exc B) : (Ok a ≫= f) = f a.
Proof. reflexivity. Qed.

Lemma py_getitem_total_time (report : ProfileReport.t) :
  py_getitem (report_dict report) "total_time"
  = Ok (JFloat (ProfileReport.total_time report)).
Proof.
  unfold py_getitem, report_dict, report_fields.
  by repeat (rewrite lookup_insert_eq || (rewrite lookup_insert_ne by done)).
Qed.

Lemma py_getitem_total_calls (report : ProfileReport.t) :
  py_getitem (report_dict report) "total_calls"
  = Ok (JInt (ProfileReport.total_calls report)).
Proof.
  unfold py_getitem, report_dict, report_fields.
  by repeat (rewrite lookup_insert_eq || (rewrite lookup_insert_ne by done)).
Qed.

Lemma mapM_key_of_strings (l : list string) :
  mapM key_of_json (JStr <$> l) = Some (KStr <$> l).
Proof.
  induction l as [|s l IH]; [done|]. cbn. rewrite IH. done.
Qed.

(** The bottlenecks of a saved report are read back as the set of its
    strings. *)
Lemma bottleneck_set_report (report : ProfileReport.t) :
  bottleneck_set (report_dict report)
  = Ok (list_to_set (KStr <$> ProfileReport.bottlenecks report)).
Proof.
  unfold bottleneck_set, py_get_or_empty, report_dict, report_fields.
  repeat (rewrite lookup_insert_eq || (rewrite lookup_insert_ne by done)).
  cbn [default]. rewrite exc_bind_ok. unfold py_set. cbn [id].
  by rewrite mapM_key_of_strings.
Qed.

(** The comparison of two files that hold saved reports. *)
Lemma compare_reports_saved (fs : gmap string text) (baseline_path current_path : string)
  (baseline current : ProfileReport.t) :
  (forall v, json_load (json_dump v) = Some v) ->
  fs !! baseline_path = Some (json_dump (report_dict baseline)) ->
  fs !! current_path = Some (json_dump (report_dict current)) ->
  compare_reports json_load load_failure fs baseline_path current_path =
    calls_change ← percent_change (JInt (ProfileReport.total_calls baseline))
                      (JInt (ProfileReport.total_calls current));
    let time_change :=
      (if (0 <? ProfileReport.total_time baseline)%float
       then ((ProfileReport.total_time current - ProfileReport.total_time baseline)
             / ProfileReport.total_time baseline * 100)%float
       else 0%float) in
    let baseline_bottlenecks : gset hkey :=
      list_to_set (KStr <$> ProfileReport.bottlenecks baseline) in
    let current_bottlenecks : gset hkey :=
      list_to_set (KStr <$> ProfileReport.bottlenecks current) in
    Ok (Comparison.mk (JFloat (ProfileReport.total_time baseline))
          (JFloat (ProfileReport.total_time current)) time_change
          (JInt (ProfileReport.total_calls baseline))
          (JInt (ProfileReport.total_calls current)) calls_change
          (current_bottlenecks ∖ baseline_bottlenecks)
          (baseline_bottlenecks ∖ current_bottlenecks)
          ((10 <? time_change)%float || (20 <? calls_change)%float)).
Proof.
  intros Hc H1 H2.
  rewrite (compare_reports_present json_load load_failure fs _ _ _ _ H1 H2).
  rewrite !Hc. cbn [or_raise].
  rewrite exc_bind_ok; cbv beta. rewrite exc_bind_ok; cbv beta.
  rewrite !py_getitem_total_time.
  rewrite exc_bind_ok; cbv beta. rewrite exc_bind_ok; cbv beta.
  rewrite percent_change_float.
  rewrite exc_bind_ok; cbv beta.
  rewrite !py_getitem_total_calls.
  rewrite exc_bind_ok; cbv beta. rewrite exc_bind_ok; cbv beta.
  rewrite !bottleneck_set_report.
  destruct (percent_change _ _) as [q|e]; [|done].
  by rewrite !exc_bind_ok.
Qed.

(** X14. Two reports saved as JSON to different paths can be compared: the
    comparison reads back their times and call counts, the change of the
    time is computed from the two times, and the new and fixed bottlenecks
    are the differences of the two lists as sets.  The only possible failure
    is an [OverflowError] from call counts beyond the floats. *)
Theorem save_then_compare (output_dir stamp1 stamp2 : string)
  (baseline current : ProfileReport.t) (fs : gmap string text)
  (baseline_path current_path : string) :
  (forall v, json_load (json_dump v) = Some v) ->
  let saved1 := save_report' output_dir stamp1 baseline "json" fs in
  let saved2 := save_report' output_dir stamp2 current "json" (snd saved1) in
  fst saved1 = Ok baseline_path ->
  fst saved2 = Ok current_path ->
  baseline_path <> current_path ->
  (exists c,
      compare_reports json_load load_failure (snd saved2) baseline_path current_path = Ok c
      /\ Comparison.baseline_time c = JFloat (ProfileReport.total_time baseline)
      /\ Comparison.current_time c = JFloat (ProfileReport.total_time current)
      /\ Comparison.time_change_percent c
         = (if (0 <? ProfileReport.total_time baseline)%float
            then ((ProfileReport.total_time current - ProfileReport.total_time baseline)
                  / ProfileReport.total_time baseline * 100)%float
            else 0%float)
      /\ Comparison.baseline_calls c = JInt (ProfileReport.total_calls baseline)
      /\ Comparison.current_calls c = JInt (ProfileReport.total_calls current)
      /\ Comparison.new_bottlenecks c
         = list_to_set (KStr <$> ProfileReport.bottlenecks current)
           ∖ list_to_set (KStr <$> ProfileReport.bottlenecks baseline)
      /\ Comparison.fixed_bottlenecks c
         = list_to_set (KStr <$> ProfileReport.bottlenecks baseline)
           ∖ list_to_set (KStr <$> ProfileReport.bottlenecks current))
  \/ compare_reports json_load load_failure (snd saved2) baseline_path current_path
     = Raise OverflowError.
Proof.
  intros Hc saved1 saved2 Hp1 Hp2 Hne.
  assert (snd saved2 !! baseline_path = Some (json_dump (report_dict baseline))
          /\ snd saved2 !! current_path = Some (json_dump (report_dict current)))
    as [H1 H2].
  { unfold saved2, saved1, save_report, save_report_json in *.
    cbn [String.eqb Ascii.eqb Bool.eqb fst snd] in *.
    inversion Hp1 as [E1]. inversion Hp2 as [E2].
    split; [|by rewrite lookup_insert_eq].
    rewrite lookup_insert_ne by (rewrite E1, E2; congruence).
    by rewrite lookup_insert_eq. }
  rewrite (compare_reports_saved _ _ _ _ _ Hc H1 H2).
  rewrite percent_change_int.
  destruct (0 <? ProfileReport.total_calls baseline);
    [|left; eexists; split; [reflexivity|]; done].
  destruct (int_truediv _ _); [|by right].
  left. eexists. split; [reflexivity|]. done.
Qed.

End SavingProperties.

(** X13, witness: two runs of [idle.py] saved within the same second. *)
Lemma save_report_replaces_sample :
  let save := save_report doc_dump (fun s => Some (JStr s)) (fun p => p) (fun p => p)
                (fun d n => d ++ "/" ++ n) "reports" "20260216_120000" in
  let second := ProfileReport.mk "idle.py" 1 7 [] [] ∅ ["later"] "2026-02-16 12:00:00" in
  fst (save second "json" (snd (save idle_report "json" ∅)))
  = fst (save idle_report "json" ∅)
  /\ snd (save second "json" (snd (save idle_report "json" ∅)))
     = snd (save second "json" ∅).
Proof.
  apply (save_report_replaces doc_dump (fun s => Some (JStr s)) (fun p => p) (fun p => p)
           (fun d n => d ++ "/" ++ n) "reports" "20260216_120000" "json" idle_report
           (ProfileReport.mk "idle.py" 1 7 [] [] ∅ ["later"] "2026-02-16 12:00:00") ∅).
  reflexivity.
Defined.

(** X14, witness: an idle run and a later run of another script. *)
Lemma save_then_compare_sample :
  let later := ProfileReport.mk "job.py" 1 7 [] ["run (50.0% of total time)"] ∅
                 ["later"] "2026-02-16 12:00:01" in
  let save := save_report doc_dump (fun s => Some (JStr s)) (fun p => p) (fun p => p)
                (fun d n => d ++ "/" ++ n) "reports" in
  let fs := snd (save "20260216_120001" later "json"
                   (snd (save "20260216_120000" idle_report "json" ∅))) in
  let baseline_path := "reports/idle.py_20260216_120000.json" in
  let current_path := "reports/job.py_20260216_120001.json" in
  (exists c,
      compare_reports doc_load doc_failure fs baseline_path current_path = Ok c
      /\ Comparison.baseline_time c = JFloat (ProfileReport.total_time idle_report)
      /\ Comparison.current_time c = JFloat (ProfileReport.total_time later)
      /\ Comparison.time_change_percent c
         = (if (0 <? ProfileReport.total_time idle_report)%float
            then ((ProfileReport.total_time later - ProfileReport.total_time idle_report)
                  / ProfileReport.total_time idle_report * 100)%float
            else 0%float)
      /\ Comparison.baseline_calls c = JInt (ProfileReport.total_calls idle_report)
      /\ Comparison.current_calls c = JInt (ProfileReport.total_calls later)
      /\ Comparison.new_bottlenecks c
         = list_to_set (KStr <$> ProfileReport.bottlenecks later)
           ∖ list_to_set (KStr <$> ProfileReport.bottlenecks idle_report)
      /\ Comparison.fixed_bottlenecks c
         = list_to_set (KStr <$> ProfileReport.bottlenecks idle_report)
           ∖ list_to_set (KStr <$> ProfileReport.bottlenecks later))
  \/ compare_reports doc_load doc_failure fs baseline_path current_path = Raise OverflowError.
Proof.
  apply (save_then_compare doc_dump doc_load doc_failure (fun s => Some (JStr s))
           (fun p => p)
           (fun p => p) (fun d n => d ++ "/" ++ n) "reports"
           "20260216_120000" "20260216_120001" idle_report
           (ProfileReport.mk "job.py" 1 7 [] ["run (50.0% of total time)"] ∅
              ["later"] "2026-02-16 12:00:01") ∅
           "reports/idle.py_20260216_120000.json" "reports/job.py_20260216_120001.json");
    [reflexivity | reflexivity | reflexivity | done].
Defined.

(** ** Profiling: the reports returned, the failures and the cleaning up *)

Section ProfileOutcomes.

Context {env : Type}.
Variable path_exists : string -> env -> bool.
Variable named_temporary_file : env -> exc string * env.
Variable time_time : env -> float.
Variable run_script : string -> @world env -> outcome * @world env.
Variable load_stats : string -> env -> exc Stats.t * env.
Variable strftime : env -> string.
Variable unlink : string -> env -> env.

Abbreviation profile' :=
  (profile path_exists named_temporary_file time_time run_script load_stats
     strftime unlink).

Lemma analyze_heap (script_path tmp_path : string) (start_time : float) (w : world) :
  heap (snd (analyze time_time load_stats strftime script_path tmp_path start_time w))
  = heap w.
Proof. unfold analyze. by destruct (load_stats _ _) as [[stats|e] r]. Qed.

(** A report returned by [profile] is built from one [Stats] object and one
    reading of the elapsed time. *)
Lemma profile_report (script_path : string) (script_args : list string)
  (w : world) (report : ProfileReport.t) :
  fst (profile' script_path script_args w) = Ok report ->
  exists stats total_time stamp,
    let hot_functions := _extract_hot_functions stats total_time default_limit in
    report = ProfileReport.mk script_path total_time (Stats.total_calls stats)
               hot_functions (_identify_bottlenecks hot_functions)
               (_extract_call_tree stats)
               (_generate_recommendations hot_functions total_time) stamp.
Proof.
  unfold profile.
  destruct (path_exists script_path (rest w)); simpl; [|done].
  destruct (named_temporary_file (rest w)) as [[tmp_path|e] r]; simpl; [|done].
  destruct (run_script _ _) as [out w1]. simpl.
  destruct out; simpl; [|done|done].
  unfold analyze. simpl.
  destruct (load_stats _ _) as [[stats|e] r']; simpl; [|done].
  intros [= <-]. by eauto.
Qed.

(** X15. In every report returned by [profile] the fields agree with each
    other: the script path is the one profiled, the bottlenecks and the
    recommendations are those of the report's own hot functions and total
    time, and the call tree has exactly the three keys [total_calls],
    [primitive_calls] and [total_functions], the first holding the report's
    total calls. *)
Theorem profile_report_consistent (script_path : string) (script_args : list string)
  (w : world) (report : ProfileReport.t) :
  fst (profile' script_path script_args w) = Ok report ->
  ProfileReport.script_path report = script_path
  /\ ProfileReport.bottlenecks report
     = _identify_bottlenecks (ProfileReport.hot_functions report)
  /\ ProfileReport.recommendations report
     = _generate_recommendations (ProfileReport.hot_functions report)
         (ProfileReport.total_time report)
  /\ ProfileReport.call_tree report !! "total_calls"
     = Some (ProfileReport.total_calls report)
  /\ dom (ProfileReport.call_tree report)
     = {[ "total_calls"; "primitive_calls"; "total_functions" ]}.
Proof.
  intros H. apply profile_report in H as (stats & total_time & stamp & ->).
  cbn [ProfileReport.script_path ProfileReport.bottlenecks ProfileReport.recommendations
       ProfileReport.hot_functions ProfileReport.total_time ProfileReport.call_tree
       ProfileReport.total_calls].
  split; [done|]. split; [done|]. split; [done|].
  unfold _extract_call_tree. split; [by rewrite lookup_insert_eq|].
  rewrite !dom_insert_L, dom_empty_L. set_solver.
Qed.

Lemma profile_report_terminal (script_path : string) (script_args : list string)
  (w : world) (report : ProfileReport.t) (show_tree : bool) :
  fst (profile' script_path script_args w) = Ok report ->
  exists text, format_terminal_report report show_tree = Ok text.
Proof.
  intros H. destruct show_tree; [|by eexists].
  apply profile_report in H as (stats & total_time & stamp & ->).
  unfold format_terminal_report, terminal_lines, terminal_call_tree, _extract_call_tree.
  cbn [ProfileReport.call_tree].
  repeat (rewrite lookup_insert_eq || (rewrite lookup_insert_ne by done)).
  cbn [or_raise]. by eexists.
Qed.

(** X16. Every report returned by [profile] can be rendered for the
    terminal with its call tree: the three keys are there. *)
Theorem profile_report_renders (script_path : string) (script_args : list string)
  (w : world) (report : ProfileReport.t) :
  fst (profile' script_path script_args w) = Ok report ->
  exists text, format_terminal_report report true = Ok text.
Proof. apply profile_report_terminal. Qed.

(** X17. Once the temporary file has been created, [profile] removes it
    however it ends: with a report, with an exception of the script, wrapped
    or passing through, or with a failure to load the statistics.  Removing
    the file is the last thing done to the machine. *)
Theorem profile_unlinks_temporary_file (script_path : string) (script_args : list string)
  (w : world) (tmp_path : string) (r : env) :
  path_exists script_path (rest w) = true ->
  named_temporary_file (rest w) = (Ok tmp_path, r) ->
  exists r', rest (snd (profile' script_path script_args w)) = unlink tmp_path r'.
Proof.
  intros He Ht. unfold profile. rewrite He, Ht. simpl.
  destruct (run_script _ _) as [out w1]. simpl.
  destruct out; simpl; [|by eauto|by eauto].
  unfold analyze. simpl.
  destruct (load_stats _ _) as [[stats|e] r']; simpl; by eauto.
Qed.


(** X19. The list that [sys.argv] was bound to keeps its contents, provided
    that it is a live list and that the script does not change that list
    object: [profile] binds [sys.argv] to a new list and never writes to the
    old one. *)
Theorem profile_keeps_argv_list (script_path : string) (script_args : list string)
  (w : world) :
  is_Some (heap w !! sys_argv w) ->
  (forall w', heap (snd (run_script script_path w')) !! sys_argv w
              = heap w' !! sys_argv w) ->
  heap (snd (profile' script_path script_args w)) !! sys_argv w
  = heap w !! sys_argv w.
Proof.
  intros Hlive Hscript. unfold profile.
  destruct (path_exists script_path (rest w)); simpl; [|done].
  destruct (named_temporary_file (rest w)) as [[tmp_path|e] r]; simpl; [|done].
  assert (fresh (dom (heap w)) <> sys_argv w) as Hfresh.
  { intros E. apply (is_fresh (dom (heap w))). rewrite E. by apply elem_of_dom. }
  match goal with
  | |- context [run_script script_path ?w1] =>
      pose proof (Hscript w1) as Hw1;
      destruct (run_script script_path w1) as [out w2]
  end.
  simpl in Hw1. rewrite lookup_insert_ne in Hw1 by done. simpl.
  destruct out; simpl; [|done|done].
  match goal with
  | |- context [analyze _ _ _ ?a ?b ?c ?d] =>
      pose proof (analyze_heap a b c d) as Ha;
      destruct (analyze time_time load_stats strftime a b c d) as [result w3]
  end.
  simpl in *. by rewrite Ha.
Qed.

End ProfileOutcomes.

(** X15, witness: the run of [sample_profile]. *)
Lemma profile_report_consistent_sample :
  ProfileReport.script_path sample_report = "job.py"
  /\ ProfileReport.bottlenecks sample_report
     = _identify_bottlenecks (ProfileReport.hot_functions sample_report)
  /\ ProfileReport.recommendations sample_report
     = _generate_recommendations (ProfileReport.hot_functions sample_report)
         (ProfileReport.total_time sample_report)
  /\ ProfileReport.call_tree sample_report !! "total_calls"
     = Some (ProfileReport.total_calls sample_report)
  /\ dom (ProfileReport.call_tree sample_report)
     = {[ "total_calls"; "primitive_calls"; "total_functions" ]}.
Proof.
  apply (profile_report_consistent (fun _ _ => true) (fun e => (Ok "stats.prof", e))
           (fun e => e) (fun _ => sample_script)
           (fun _ e => (Ok sample_stats, e)) (fun _ => "2026-02-16 12:00:00")
           (fun _ e => e) "job.py" ["--fast"] sample_world sample_report).
  vm_compute. reflexivity.
Defined.

(** X16, witness: the run of [sample_profile]. *)
Lemma profile_report_renders_sample :
  exists text, format_terminal_report sample_report true = Ok text.
Proof.
  apply (profile_report_renders (fun _ _ => true) (fun e => (Ok "stats.prof", e))
           (fun e => e) (fun _ => sample_script)
           (fun _ e => (Ok sample_stats, e)) (fun _ => "2026-02-16 12:00:00")
           (fun _ e => e) "job.py" ["--fast"] sample_world sample_report).
  vm_compute. reflexivity.
Defined.

(** X17, witness: the run of [sample_profile], whose machine is a clock. *)
Lemma profile_unlinks_temporary_file_sample :
  exists r' : float, rest (snd (sample_profile sample_world)) = r'.
Proof.
  apply (profile_unlinks_temporary_file (fun _ _ => true) (fun e => (Ok "stats.prof", e))
           (fun e => e) (fun _ => sample_script)
           (fun _ e => (Ok sample_stats, e)) (fun _ => "2026-02-16 12:00:00")
           (fun _ e => e) "job.py" ["--fast"] sample_world "stats.prof" 0%float);
    reflexivity.
Defined.


(** X19, witness: the sample script leaves every list alone. *)
Lemma profile_keeps_argv_list_sample :
  heap (snd (sample_profile sample_world)) !! sys_argv sample_world
  = heap sample_world !! sys_argv sample_world.
Proof.
  apply (profile_keeps_argv_list (fun _ _ => true) (fun e => (Ok "stats.prof", e))
           (fun e => e) (fun _ => sample_script)
           (fun _ e => (Ok sample_stats, e)) (fun _ => "2026-02-16 12:00:00")
           (fun _ e => e) "job.py" ["--fast"] sample_world).
  - exists ["profilescope"; "run"; "job.py"]. reflexivity.
  - intros w'. reflexivity.
Defined.

(** ** The command [compare] *)

Section CommandProperties.

Context {text : Type}.
Variable json_dump : json -> text.
Variable json_load : text -> option json.
Variable load_failure : text -> load_error.
Variable make_output_dir : exc unit.

Lemma comparison_error_is_exception (e : pyerr) :
  comparison_error e -> is_exception e = true.
Proof.
  intros [[failure ->] | [[key ->] | [-> | ->]]]; [by destruct failure | done..].
Qed.

Lemma compare_reports_is_exception (fs : gmap string text)
  (baseline current : string) (e : pyerr) :
  compare_reports json_load load_failure fs baseline current = Raise e ->
  is_exception e = true.
Proof.
  destruct (fs !! baseline) as [b|] eqn:Eb;
    [|unfold compare_reports; rewrite Eb; by intros [= <-]].
  destruct (fs !! current) as [c|] eqn:Ec;
    [|unfold compare_reports; rewrite Eb, Ec; by intros [= <-]].
  intros H. apply comparison_error_is_exception.
  by apply (compare_reports_present_raises json_load load_failure fs _ _ _ _ e Eb Ec).
Qed.

Lemma format_fixed_is_exception (v : json) (e : pyerr) :
  raise_if (format_fixed_error v) = Raise e -> is_exception e = true.
Proof.
  destruct v as [| |z| | | |]; simpl; try done; try by intros [= <-].
  destruct (int_to_float z); simpl; [done|]. by intros [= <-].
Qed.

Lemma format_comma_is_exception (v : json) (e : pyerr) :
  raise_if (format_comma_error v) = Raise e -> is_exception e = true.
Proof. destruct v; simpl; try done; by intros [= <-]. Qed.

Lemma print_comparison_is_exception (c : Comparison.t) (e : pyerr) :
  print_comparison c = Raise e -> is_exception e = true.
Proof.
  unfold print_comparison.
  apply (bind_raises (fun e => is_exception e = true));
    [apply format_fixed_is_exception|]. intros _ _.
  apply (bind_raises (fun e => is_exception e = true));
    [apply format_fixed_is_exception|]. intros _ _.
  apply (bind_raises (fun e => is_exception e = true));
    [apply format_comma_is_exception|]. intros _ _.
  apply format_comma_is_exception.
Qed.

(** X20. The command [compare] ends with status 0 or 1.  No exception of
    the comparison or of the printing leaves it: the only exception that
    does is one that is no [Exception], raised while the output directory is
    made. *)
Theorem main_compare_status (fs : gmap string text) (baseline current : string) :
  match main_compare json_load load_failure make_output_dir fs baseline current with
  | Ok status => status = 0 \/ status = 1
  | Raise e => make_output_dir = Raise e /\ is_exception e = false
  end.
Proof.
  unfold main_compare.
  destruct make_output_dir as [[]|e0]; simpl;
    [|by destruct (is_exception e0) eqn:E; eauto].
  destruct (compare_reports json_load load_failure fs baseline current) as [c|e] eqn:Ec; simpl;
    [|rewrite (compare_reports_is_exception _ _ _ _ Ec); by right].
  destruct (print_comparison c) as [[]|e] eqn:Ep; simpl;
    [|rewrite (print_comparison_is_exception _ _ Ep); by right].
  destruct (Comparison.regression_detected c); by eauto.
Qed.

(** X21. When a report file is missing, the baseline or the current one,
    the command ends with status 1. *)
Theorem main_compare_missing_report (fs : gmap string text) (baseline current : string) :
  make_output_dir = Ok tt ->
  fs !! baseline = None \/ fs !! current = None ->
  main_compare json_load load_failure make_output_dir fs baseline current = Ok 1.
Proof.
  intros Hd H. unfold main_compare, compare_reports. rewrite Hd.
  destruct (fs !! baseline) as [b|]; [|done].
  destruct H as [H|H]; [done|]. by rewrite H.
Qed.

Lemma self_time_no_regression (t : float) :
  (10 <? (if (0 <? t)%float then ((t - t) / t * 100)%float else 0%float))%float = false.
Proof.
  destruct (0 <? t)%float eqn:E; [|reflexivity].
  destruct (positive_float t E) as [-> | (m & e & H)]; [reflexivity|].
  rewrite self_change_float; [reflexivity | done |].
  intros ->. by vm_compute in H.
Qed.

(** X22. Comparing a saved report with itself ends with status 0, whatever
    the report: both changes are zero, or the change of an infinite time is
    not a number, which exceeds no threshold. *)
Theorem main_compare_same_report (fs : gmap string text) (path : string)
  (report : ProfileReport.t) :
  (forall v, json_load (json_dump v) = Some v) ->
  make_output_dir = Ok tt ->
  fs !! path = Some (json_dump (report_dict report)) ->
  main_compare json_load load_failure make_output_dir fs path path = Ok 0.
Proof.
  intros Hc Hd Hf. unfold main_compare. rewrite Hd, exc_bind_ok.
  rewrite (compare_reports_saved json_dump json_load load_failure fs path path report
             report Hc Hf Hf).
  rewrite percent_change_self; [|by eauto|done].
  rewrite exc_bind_ok. cbv zeta.
  rewrite exc_bind_ok.
  unfold print_comparison.
  cbn [Comparison.baseline_time Comparison.current_time Comparison.baseline_calls
       Comparison.current_calls Comparison.regression_detected
       format_fixed_error format_comma_error raise_if].
  rewrite !exc_bind_ok. rewrite self_time_no_regression. reflexivity.
Qed.

End CommandProperties.

(** X21, witness: no file at all. *)
Lemma main_compare_missing_report_sample :
  main_compare doc_load doc_failure (Ok tt) ∅ "baseline.json" "current.json" = Ok 1.
Proof.
  apply (main_compare_missing_report doc_load doc_failure (Ok tt) ∅
           "baseline.json" "current.json");
    [reflexivity | left; reflexivity].
Defined.

(** X22, witness: the report of an idle run. *)
Lemma main_compare_same_report_sample :
  main_compare doc_load doc_failure (Ok tt) (<["idle.json" := doc_dump (report_dict idle_report)]> ∅)
    "idle.json" "idle.json" = Ok 0.
Proof.
  apply (main_compare_same_report doc_dump doc_load doc_failure (Ok tt)
           (<["idle.json" := doc_dump (report_dict idle_report)]> ∅) "idle.json"
           idle_report);
    [intros v; reflexivity | reflexivity | apply lookup_insert_eq].
Defined.

(** ** The command [run] *)

Section RunProperties.

Context {env text : Type}.
Variable path_exists : string -> env -> bool.
Variable named_temporary_file : env -> exc string * env.
Variable time_time : env -> float.
Variable run_script : string -> @world env -> outcome * @world env.
Variable load_stats : string -> env -> exc Stats.t * env.
Variable strftime : env -> string.
Variable unlink : string -> env -> env.
Variable json_dump : json -> text.
Variable plain : string -> text.
Variable stem : string -> string.
Variable path_name : string -> string.
Variable joinpath : string -> string -> string.
Variable stamp : env -> string.
Variable files : env -> gmap string text.
Variable set_files : gmap string text -> env -> env.
Variable make_output_dir : exc unit.

Abbreviation profile' :=
  (profile path_exists named_temporary_file time_time run_script load_stats
     strftime unlink).
Abbreviation main_run' :=
  (main_run path_exists named_temporary_file time_time run_script load_stats
     strftime unlink json_dump plain stem path_name joinpath stamp files set_files
     make_output_dir).

(** X23. With a format that the command line accepts and an output
    directory that can be made, the outcome of the command [run] is decided
    by [profile] alone: status 0 when it returns a report, since rendering
    and saving that report never fail; status 1 when it raises an
    [Exception]; and any other exception, such as the [SystemExit] of a
    script that calls [sys.exit], leaves the command. *)
Theorem main_run_status (output_dir script : string) (script_args : list string)
  (format : string) (tree : bool) (w : world) :
  In format ["terminal"; "json"; "markdown"; "html"] ->
  make_output_dir = Ok tt ->
  fst (main_run' output_dir script script_args format tree w)
  = match fst (profile' script script_args w) with
    | Ok _ => Ok 0
    | Raise e => if is_exception e then Ok 1 else Raise e
    end.
Proof.
  intros Hf Hd. unfold main_run. rewrite Hd.
  pose proof (profile_report_terminal path_exists named_temporary_file time_time
                run_script load_stats strftime unlink script script_args w) as Hr.
  destruct (profile' script script_args w) as [[report|e] w1]; [|done].
  cbn [fst] in *.
  destruct (Hr report tree eq_refl) as [shown Hs].
  destruct Hf as [<- | [<- | [<- | [<- | []]]]]; cbn [String.eqb Ascii.eqb Bool.eqb];
    [by rewrite Hs | done | done | done].
Qed.

End RunProperties.

(** X23, witness: the sample run, saved as JSON. *)
Lemma main_run_status_sample :
  fst (sample_run "json" false sample_world)
  = match fst (sample_profile sample_world) with
    | Ok _ => Ok 0
    | Raise e => if is_exception e then Ok 1 else Raise e
    end.
Proof.
  apply (main_run_status (text := doc_text) (fun _ _ => true)
           (fun e => (Ok "stats.prof", e))
           (fun e => e) (fun _ => sample_script) (fun _ e => (Ok sample_stats, e))
           (fun _ => "2026-02-16 12:00:00") (fun _ e => e)
           doc_dump (fun s => Some (JStr s)) (fun p => p) (fun p => p)
           (fun d n => d ++ "/" ++ n) (fun _ => "20260216_120000")
           (fun _ => ∅) (fun _ e => e) (Ok tt)
           "profilescope_reports" "job.py" ["--fast"] "json" false sample_world);
    [right; left; reflexivity | reflexivity].
Defined.
